(** * Sentra: score aggregation, modality adapters and request handlers

    A shallow embedding of [index.py].  The three pretrained models and
    the HTTP framework are black boxes of the service; they appear here
    as the variables of a section.  Probabilities are modelled as exact
    rationals ([Q]); the rounding of IEEE doubles is outside the model.
    Python dictionaries are insertion ordered and iterate in that order,
    so a dictionary is an association list whose keys are pairwise
    distinct.  Strings are sequences of code points below 256. *)

From Stdlib Require Import QArith Qminmax Lqa ZArith Lia.
From Stdlib Require Import List String Ascii Bool Permutation.
Import ListNotations.

Local Open Scope string_scope.
Local Open Scope Q_scope.

(** ** Exceptions and fallible computations *)

(** The exception classes the code can meet.  [ValueError], [TypeError],
    [AttributeError], [IndexError] and [KeyError] are raised by the
    interpreter at the places modelled below; the two
    [speech_recognition] classes are the ones [speech_to_text] tells
    apart; an exception of any other class is an [OtherError] with the
    name of its class and its message. *)
Inductive exn : Type :=
| ValueError
| TypeError
| AttributeError
| IndexError
| KeyError
| UnknownValueError
| RequestError (msg : string)
| OtherError (cls msg : string).

Inductive result (A : Type) : Type :=
| Ok (a : A)
| Raise (e : exn).
Arguments Ok {A} a.
Arguments Raise {A} e.

Definition rbind {A B} (r : result A) (k : A -> result B) : result B :=
  match r with
  | Ok a => k a
  | Raise e => Raise e
  end.

(** ** Dictionaries *)

Definition dict (V : Type) : Type := list (string * V).

Definition keys {V} (d : dict V) : list string := map fst d.
Definition values {V} (d : dict V) : list V := map snd d.

Fixpoint dict_get {V} (d : dict V) (k : string) : option V :=
  match d with
  | [] => None
  | (k', v) :: rest => if String.eqb k' k then Some v else dict_get rest k
  end.

(** [d[k] = v]: an existing key keeps its position, a new key goes last. *)
Fixpoint dict_set {V} (d : dict V) (k : string) (v : V) : dict V :=
  match d with
  | [] => [(k, v)]
  | (k', v') :: rest =>
      if String.eqb k' k then (k', v) :: rest else (k', v') :: dict_set rest k v
  end.

(** ** Score aggregator *)

(** [DETOXIFY_CATEGORIES], identifier to display name. *)
Definition DETOXIFY_CATEGORIES : dict string :=
  [ ("toxic", "General Toxicity");
    ("severe_toxic", "Severe Toxicity");
    ("obscene", "Obscene Language");
    ("threat", "Threats");
    ("insult", "Insults");
    ("identity_hate", "Identity Hate") ]%string.

Definition TOXICITY_THRESHOLD : Q := 5 # 10.

Definition Qlt_bool (x y : Q) : bool := negb (Qle_bool y x).

(** Built-in [max] of a sequence: the first of the largest elements,
    [ValueError] on an empty sequence. *)
Definition py_max (xs : list Q) : result Q :=
  match xs with
  | [] => Raise ValueError
  | x :: rest => Ok (fold_left (fun m y => if Qlt_bool m y then y else m) rest x)
  end.

(** Built-in [min] of two arguments: the first one unless the second is
    strictly smaller. *)
Definition py_min (x y : Q) : Q := if Qlt_bool y x then y else x.

Record verdict : Type := mk_verdict {
  detected_categories : dict Q;
  overall_score : Q;
  all_scores : dict Q;
  is_toxic : bool
}.

(** The three locals the [for] loop of [analyze_toxicity] updates. *)
Record loop_state : Type := mk_loop {
  acc_detected : dict Q;
  acc_score : Q;
  acc_count : Z
}.

Definition loop_init : loop_state := mk_loop [] 0 0%Z.

Definition loop_body (st : loop_state) (item : string * Q) : loop_state :=
  let (category, score) := item in
  if Qle_bool TOXICITY_THRESHOLD score then
    mk_loop (dict_set (acc_detected st) category score)
            (acc_score st + score)
            (acc_count st + 1)%Z
  else st.

Definition scan_scores (raw_scores : dict Q) : loop_state :=
  fold_left loop_body raw_scores loop_init.

(** The overall score before the cap: lines 69 to 73. *)
Definition weighted_score (raw_scores : dict Q) (st : loop_state) : result Q :=
  if (0 <? acc_count st)%Z then
    Ok ((acc_score st / inject_Z (acc_count st)) * 100)
  else
    rbind (py_max (values raw_scores)) (fun m => Ok (m * 50)).

(** The body of [analyze_toxicity] from line 58 on, as a function of the
    classifier's scores. *)
Definition aggregate_scores (raw_scores : dict Q) : result verdict :=
  let st := scan_scores raw_scores in
  rbind (weighted_score raw_scores st) (fun overall =>
    Ok {| detected_categories := acc_detected st;
          overall_score := py_min overall 100;
          all_scores := raw_scores;
          is_toxic := (0 <? Z.of_nat (List.length (acc_detected st)))%Z |}).

(** The same function with the cap of line 77 left out. *)
Definition aggregate_scores_uncapped (raw_scores : dict Q) : result verdict :=
  let st := scan_scores raw_scores in
  rbind (weighted_score raw_scores st) (fun overall =>
    Ok {| detected_categories := acc_detected st;
          overall_score := overall;
          all_scores := raw_scores;
          is_toxic := (0 <? Z.of_nat (List.length (acc_detected st)))%Z |}).

(** [convert_float32_to_float] on a dictionary of scores: the
    comprehension rebuilds the dictionary entry by entry; both float
    types are [Q] here, so every value is kept. *)
Definition convert_float32_to_float (d : dict Q) : dict Q :=
  map (fun kv => (fst kv, snd kv)) d.

Section Classifier.

(** [detox_model.predict]. *)
Variable detox_model_predict : string -> dict Q.

Definition predict_detox (text : string) : dict Q :=
  convert_float32_to_float (detox_model_predict text).

Definition analyze_toxicity (text : string) : result verdict :=
  aggregate_scores (predict_detox text).

End Classifier.

(** ** String primitives *)

Definition code (c : ascii) : nat := nat_of_ascii c.

(** [str.lower] on one character: the upper-case letters below 256 are
    A to Z and the Latin-1 capitals, each 32 below its lower-case form. *)
Definition is_upper (c : ascii) : bool :=
  let n := code c in
  ((65 <=? n) && (n <=? 90) || (192 <=? n) && (n <=? 222) && negb (n =? 215))%nat.

Definition lower_char (c : ascii) : ascii :=
  if is_upper c then ascii_of_nat (code c + 32) else c.

Fixpoint lower (s : string) : string :=
  match s with
  | EmptyString => EmptyString
  | String c rest => String (lower_char c) (lower rest)
  end.

(** [str.isspace] on one character below 256. *)
Definition is_space (c : ascii) : bool :=
  let n := code c in
  ((9 <=? n) && (n <=? 13) || (28 <=? n) && (n <=? 32) || (n =? 133) || (n =? 160))%nat.

Fixpoint lstrip (s : string) : string :=
  match s with
  | EmptyString => EmptyString
  | String c rest => if is_space c then lstrip rest else s
  end.

Fixpoint rstrip (s : string) : string :=
  match s with
  | EmptyString => EmptyString
  | String c rest =>
      match rstrip rest with
      | EmptyString => if is_space c then EmptyString else String c EmptyString
      | r => String c r
      end
  end.

Definition strip (s : string) : string := rstrip (lstrip s).

(** [sub in s] on strings. *)
Definition str_contains (sub s : string) : bool :=
  match index 0 sub s with
  | Some _ => true
  | None => false
  end.

Definition startswith (s p : string) : bool := prefix p s.

(** Where the last [sep] of [s] splits it, if [s] has one. *)
Fixpoint split_last (sep : ascii) (s : string) : option (string * string) :=
  match s with
  | EmptyString => None
  | String c rest =>
      match split_last sep rest with
      | Some (h, t) => Some (String c h, t)
      | None => if Ascii.eqb c sep then Some (EmptyString, rest) else None
      end
  end.

(** [s.rsplit(sep, 1)] for a separator of one character. *)
Definition rsplit1 (sep : ascii) (s : string) : list string :=
  match split_last sep s with
  | Some (h, t) => [h; t]
  | None => [s]
  end.

(** [xs[i]] on a list. *)
Definition py_index {A} (xs : list A) (i : nat) : result A :=
  match nth_error xs i with
  | Some x => Ok x
  | None => Raise IndexError
  end.

Definition str_in (s : string) (xs : list string) : bool :=
  existsb (String.eqb s) xs.

(** ** Audio file names *)

Definition ALLOWED_AUDIO_EXTENSIONS : list string :=
  ["wav"; "mp3"; "m4a"; "flac"; "aac"]%string.

(** [allowed_audio_file]: [and] evaluates its right operand only when
    the left one is true. *)
Definition allowed_audio_file (filename : string) : result bool :=
  if str_contains "." filename then
    rbind (py_index (rsplit1 "." filename) 1) (fun ext =>
      Ok (str_in (lower ext) ALLOWED_AUDIO_EXTENSIONS))
  else Ok false.

(** ** Values of a parsed JSON body *)

#[warnings="-register-all"]
Inductive pyval : Type :=
| PNone
| PBool (b : bool)
| PInt (z : Z)
| PFloat (q : Q)
| PStr (s : string)
| PList (xs : list pyval)
| PDict (d : list (string * pyval)).

(** Truth value of an object, as [not data] tests it. *)
Definition truthy (v : pyval) : bool :=
  match v with
  | PNone => false
  | PBool b => b
  | PInt z => negb (z =? 0)%Z
  | PFloat q => negb (Qeq_bool q 0)
  | PStr s => negb (String.eqb s "")
  | PList xs => match xs with [] => false | _ => true end
  | PDict d => match d with [] => false | _ => true end
  end.

Definition is_str (k : string) (v : pyval) : bool :=
  match v with
  | PStr s => String.eqb s k
  | _ => false
  end.

(** [k in data] for a string [k]: a key of a dictionary, an element of
    a list, a substring of a string; [TypeError] on what is not a
    container. *)
Definition py_in (k : string) (data : pyval) : result bool :=
  match data with
  | PDict d => Ok (match dict_get d k with Some _ => true | None => false end)
  | PList xs => Ok (existsb (is_str k) xs)
  | PStr s => Ok (str_contains k s)
  | _ => Raise TypeError
  end.

(** [data[k]] for a string [k]: the value of a dictionary key;
    [TypeError] on a list or a string, whose indices are integers, and
    on what has no items. *)
Definition py_getitem (data : pyval) (k : string) : result pyval :=
  match data with
  | PDict d => match dict_get d k with Some v => Ok v | None => Raise KeyError end
  | _ => Raise TypeError
  end.

(** [v.strip()]: only strings have the method. *)
Definition py_strip (v : pyval) : result string :=
  match v with
  | PStr s => Ok (strip s)
  | _ => Raise AttributeError
  end.

(** ** Requests, responses and the log of calls *)

Definition bytes : Type := list Byte.byte.

(** An uploaded file: [filename] and what [read()] returns. *)
Record upload : Type := mk_upload {
  filename : string;
  content : bytes
}.

(** What a handler reads of the request: the outcome of
    [request.get_json()] and the multipart files of [request.files]. *)
Record request : Type := mk_request {
  get_json : result pyval;
  files : list (string * upload)
}.

Inductive body : Type :=
| ErrorBody (error : string)
| VerdictBody (v : verdict) (extracted_text : option string).

Record response : Type := mk_response {
  status : Z;
  payload : body
}.

(** [jsonify(x)] alone is a 200; [jsonify(x), n] has status [n]. *)
Definition jsonify (b : body) : response := mk_response 200 b.
Definition jsonify_status (b : body) (n : Z) : response := mk_response n b.

(** The calls a handler makes to an adapter or to the aggregator. *)
Inductive call : Type :=
| CallExtractText (image_data : bytes)
| CallSpeechToText (audio_data : bytes) (original_filename : string)
| CallAnalyzeToxicity (text : string).

(** A handler body: it may raise, and it logs its calls in order. *)
Definition M (A : Type) : Type := list call -> result A * list call.

Definition ret {A} (a : A) : M A := fun log => (Ok a, log).

Definition bind {A B} (m : M A) (k : A -> M B) : M B :=
  fun log =>
    match m log with
    | (Ok a, log') => k a log'
    | (Raise e, log') => (Raise e, log')
    end.

Definition lift {A} (r : result A) : M A := fun log => (r, log).

Definition logged {A} (c : call) (r : result A) : M A :=
  fun log => (r, (log ++ [c])%list).

Notation "x <- m ;; k" := (bind m (fun x => k))
  (at level 61, m at next level, right associativity).

(** The zero-score body both file handlers return without aggregating. *)
Definition zero_verdict : verdict :=
  {| detected_categories := [];
     overall_score := 0;
     all_scores := map (fun category => (category, 0)) (keys DETOXIFY_CATEGORIES);
     is_toxic := false |}.

(** ** Adapters and handlers *)

Definition newline : string := String (ascii_of_nat 10) EmptyString.

Section Service.

(** [detox_model.predict], the classifier. *)
Variable detox_model_predict : string -> dict Q.

(** [str(e)] on an exception. *)
Variable str_exn : exn -> string.

(** Lines 88 to 91: decoding the image and [reader.readtext]. *)
Variable ocr_read : bytes -> result (list string).

(** Lines 106 to 113: decoding the audio, exporting it as WAV and
    recording it after the calibration window. *)
Variable audio_clip : Type.
Variable load_audio : bytes -> result audio_clip.

(** [recognizer.recognize_google]. *)
Variable recognize_google : audio_clip -> result string.

Definition extract_text_from_image (image_data : bytes) : string :=
  match ocr_read image_data with
  | Ok results =>
      match results with
      | [] => "No text detected in image"
      | _ => concat newline results
      end
  | Raise e => "Error extracting text: " ++ str_exn e
  end.

(** The inner [try] catches the two recognition classes, the outer one
    everything else, also what [recognize_google] raises besides. *)
Definition speech_to_text (audio_data : bytes) (original_filename : string) : string :=
  match load_audio audio_data with
  | Ok audio =>
      match recognize_google audio with
      | Ok transcript => transcript
      | Raise UnknownValueError => "Could not understand audio"
      | Raise (RequestError msg) =>
          "Speech recognition error: " ++ str_exn (RequestError msg)
      | Raise e => "Audio processing error: " ++ str_exn e
      end
  | Raise e => "Audio processing error: " ++ str_exn e
  end.

Definition call_analyze_toxicity (text : string) : M verdict :=
  logged (CallAnalyzeToxicity text) (analyze_toxicity detox_model_predict text).

Definition call_extract_text (image_data : bytes) : M string :=
  logged (CallExtractText image_data) (Ok (extract_text_from_image image_data)).

Definition call_speech_to_text (audio_data : bytes) (original_filename : string) : M string :=
  logged (CallSpeechToText audio_data original_filename)
         (Ok (speech_to_text audio_data original_filename)).

(** [try: ... except Exception as e: return jsonify(error), 500],
    started on an empty log. *)
Definition try_except (failed : string) (m : M response) : response * list call :=
  match m [] with
  | (Ok r, log) => (r, log)
  | (Raise e, log) => (jsonify_status (ErrorBody (failed ++ str_exn e)) 500, log)
  end.

(** [not data or 'text' not in data]. *)
Definition no_text (data : pyval) : result bool :=
  if negb (truthy data) then Ok true
  else rbind (py_in "text" data) (fun b => Ok (negb b)).

Definition analyze_text_route (req : request) : response * list call :=
  try_except "Text analysis failed: " (
    data <- lift (get_json req) ;;
    missing <- lift (no_text data) ;;
    if missing then ret (jsonify_status (ErrorBody "No text provided") 400)
    else
      field <- lift (py_getitem data "text") ;;
      text <- lift (py_strip field) ;;
      if String.eqb text "" then
        ret (jsonify_status (ErrorBody "Text cannot be empty") 400)
      else
        toxicity_results <- call_analyze_toxicity text ;;
        ret (jsonify (VerdictBody toxicity_results None))).

Definition analyze_image_route (req : request) : response * list call :=
  try_except "Image analysis failed: " (
    match dict_get (files req) "image" with
    | None => ret (jsonify_status (ErrorBody "No image file provided") 400)
    | Some image_file =>
        if String.eqb (filename image_file) "" then
          ret (jsonify_status (ErrorBody "No image selected") 400)
        else
          extracted_text <- call_extract_text (content image_file) ;;
          if startswith extracted_text "Error"
             || String.eqb extracted_text "No text detected in image" then
            ret (jsonify (VerdictBody zero_verdict (Some extracted_text)))
          else
            toxicity_results <- call_analyze_toxicity extracted_text ;;
            ret (jsonify (VerdictBody toxicity_results (Some extracted_text)))
    end).

Definition analyze_audio_route (req : request) : response * list call :=
  try_except "Audio analysis failed: " (
    match dict_get (files req) "audio" with
    | None => ret (jsonify_status (ErrorBody "No audio file provided") 400)
    | Some audio_file =>
        if String.eqb (filename audio_file) "" then
          ret (jsonify_status (ErrorBody "No audio selected") 400)
        else
          allowed <- lift (allowed_audio_file (filename audio_file)) ;;
          if negb allowed then
            ret (jsonify_status
                   (ErrorBody "Invalid audio format. Supported: WAV, MP3, M4A, FLAC, AAC")
                   400)
          else
            extracted_text <-
              call_speech_to_text (content audio_file) (filename audio_file) ;;
            if startswith extracted_text "Error"
               || String.eqb extracted_text "Could not understand audio" then
              ret (jsonify (VerdictBody zero_verdict (Some extracted_text)))
            else
              toxicity_results <- call_analyze_toxicity extracted_text ;;
              ret (jsonify (VerdictBody toxicity_results (Some extracted_text)))
    end).

End Service.

(** ** The specification's vocabulary *)

(** RawScores: one score for each of the six categories, each a
    probability. *)
Definition six_categories (raw_scores : dict Q) : Prop :=
  Permutation (keys raw_scores) (keys DETOXIFY_CATEGORIES).

Definition probabilities (raw_scores : dict Q) : Prop :=
  Forall (fun s => 0 <= s <= 1) (values raw_scores).

(** [{c: s for c, s in RawScores if s >= 0.5}]. *)
Definition at_threshold (item : string * Q) : bool := Qle_bool (1 # 2) (snd item).

Definition restriction (scores : dict Q) : dict Q := filter at_threshold scores.

Fixpoint Qsum (xs : list Q) : Q :=
  match xs with
  | [] => 0
  | x :: rest => x + Qsum rest
  end.

Definition mean (xs : list Q) : Q := Qsum xs / inject_Z (Z.of_nat (List.length xs)).

Definition is_maximum (m : Q) (xs : list Q) : Prop :=
  In m xs /\ Forall (fun x => x <= m) xs.

(** The invariant of a verdict. *)
Definition verdict_invariant (v : verdict) : Prop :=
  detected_categories v = restriction (all_scores v) /\
  (is_toxic v = true <-> detected_categories v <> []).

Definition chars (s : string) : list ascii := list_ascii_of_string s.

(** The file name has a dot, and what follows its last dot is, in lower
    case, one of the allowed extensions. *)
Definition has_allowed_extension (filename : string) : Prop :=
  exists stem ext,
    filename = stem ++ "." ++ ext /\
    ~ In "."%char (chars ext) /\
    In (lower ext) ALLOWED_AUDIO_EXTENSIONS.

(** The text input of a request is missing, empty after trimming, or
    malformed. *)
Definition invalid_text_input (req : request) : Prop :=
  match get_json req with
  | Raise _ => True
  | Ok (PDict d) =>
      match dict_get d "text" with
      | None => True
      | Some (PStr s) => strip s = ""
      | Some _ => True
      end
  | Ok _ => True
  end.

(** The parsed body is empty or has no [text]. *)
Definition lacks_text (data : pyval) : Prop :=
  truthy data = false \/ py_in "text" data = Ok false.

(** The parsed body is an object whose [text] is a string that is empty
    after trimming. *)
Definition blank_text (data : pyval) : Prop :=
  exists d s, data = PDict d /\ dict_get d "text" = Some (PStr s) /\ strip s = "".

(** An exception of the class [InputError]. *)
Definition is_InputError (e : exn) : Prop :=
  exists msg, e = OtherError "InputError" msg.

(** A 200 of a handler carries a verdict; it is the zero verdict, or the
    aggregator's verdict on a text that the log shows. *)
Definition from_handler (detox_model_predict : string -> dict Q)
    (r : response) (log : list call) : Prop :=
  status r <> 200%Z \/
  (exists et, payload r = VerdictBody zero_verdict et /\
              forall text, ~ In (CallAnalyzeToxicity text) log) \/
  (exists v et text, payload r = VerdictBody v et /\
                     analyze_toxicity detox_model_predict text = Ok v /\
                     In (CallAnalyzeToxicity text) log).

Ltac run_handler :=
  unfold try_except, bind, lift, ret, logged, call_analyze_toxicity,
    call_extract_text, call_speech_to_text; simpl.

Ltac settle_outcome :=
  match goal with
  | |- from_handler _ _ _ =>
      first
        [ left; simpl; discriminate
        | right; left; eexists; split;
          [reflexivity | simpl; intros ? [H|H]; [discriminate H | exact H]]
        | right; right; do 3 eexists; split; [reflexivity|];
          split; [eassumption | simpl; auto] ]
  end.

(** ** Sample inputs *)

(** One category at 0.9, the others at 0.1. *)
Definition one_detected : dict Q :=
  [ ("toxic", 9 # 10); ("severe_toxic", 1 # 10); ("obscene", 1 # 10);
    ("threat", 1 # 10); ("insult", 1 # 10); ("identity_hate", 1 # 10) ].

(** Every category below the threshold, the largest score 0.3. *)
Definition none_detected : dict Q :=
  [ ("toxic", 3 # 10); ("severe_toxic", 1 # 10); ("obscene", 2 # 10);
    ("threat", 1 # 10); ("insult", 1 # 10); ("identity_hate", 1 # 10) ].

(** [str(e)] for the samples: the message the exception carries. *)
Definition sample_str (e : exn) : string :=
  match e with
  | RequestError msg => msg
  | OtherError _ msg => msg
  | _ => ""
  end.

(** An audio upload named clip.txt. *)
Definition clip_txt_request : request :=
  mk_request (Raise (OtherError "UnsupportedMediaType" "415 Unsupported Media Type"))
             [("audio", mk_upload "clip.txt" [])].

(** A JSON body whose [text] is a number. *)
Definition number_text_request : request :=
  mk_request (Ok (PDict [("text", PInt 5)])) [].

(** ** Conversion of classifier results, lines 34 to 47 *)

Module Convert.

(** A numeric array: an item, or an axis of arrays. *)
#[warnings="-register-all"]
Inductive ndarray : Type :=
| Item (q : Q)
| Axis (rows : list ndarray).

(** The objects [convert_float32_to_float] tells apart; [Other] is any
    object of another type, returned as it is. *)
#[warnings="-register-all"]
Inductive obj : Type :=
| Dict (d : list (string * obj))
| List (xs : list obj)
| Float32 (q : Q)
| Float (q : Q)
| NdArray (a : ndarray)
| Other (repr : string).

(** [ndarray.tolist()]: nested lists of floats, a float for an item. *)
Fixpoint tolist (a : ndarray) : obj :=
  match a with
  | Item q => Float q
  | Axis rows => List (map tolist rows)
  end.

Fixpoint convert_float32_to_float (o : obj) : obj :=
  match o with
  | Dict d =>
      Dict (map (fun kv => match kv with
                           | (key, value) => (key, convert_float32_to_float value)
                           end) d)
  | List xs => List (map convert_float32_to_float xs)
  | Float32 q => Float q
  | Float q => Float q
  | NdArray a => tolist a
  | Other repr => Other repr
  end.

(** No [np.float32] and no array is left in the nesting of dictionaries
    and lists. *)
Fixpoint plain (o : obj) : bool :=
  match o with
  | Dict d => forallb (fun kv => plain (snd kv)) d
  | List xs => forallb plain xs
  | Float32 _ => false
  | Float _ => true
  | NdArray _ => false
  | Other _ => true
  end.

(** A dictionary of [np.float32] scores, and one of floats. *)
Definition float32_scores (d : dict Q) : obj :=
  Dict (map (fun kv => (fst kv, Float32 (snd kv))) d).

Definition float_scores (d : dict Q) : obj :=
  Dict (map (fun kv => (fst kv, Float (snd kv))) d).

End Convert.

(** ** The history of the client, lines 819 and 990 to 998, 1065 to 1072 *)

Module Frontend.

Section History.

(** An entry of the history. *)
Variable analysis : Type.

(** The page keeps [analysisHistory] and writes it to the local storage
    under the key sentra_history; a stored value is the list it was
    serialised from. *)
Record page : Type := mk_page {
  analysisHistory : list analysis;
  sentra_history : option (list analysis)
}.

(** Line 819: [JSON.parse(localStorage.getItem(key)) || []]. *)
Definition load (storage : option (list analysis)) : list analysis :=
  match storage with
  | Some h => h
  | None => []
  end.

Definition addToHistory (a : analysis) (p : page) : page :=
  let h := a :: analysisHistory p in
  let h := if (10 <? List.length h)%nat then firstn 10 h else h in
  mk_page h (Some h).

(** [clearHistory], with the answer to [confirm]. *)
Definition clearHistory (confirmed : bool) (p : page) : page :=
  if confirmed then mk_page [] None else p.

End History.

End Frontend.

(** ** More sample inputs *)

(** An image upload and an audio upload. *)
Definition scan_request : request :=
  mk_request (Raise (OtherError "UnsupportedMediaType" "415 Unsupported Media Type"))
             [("image", mk_upload "scan.png" [])].

Definition clip_wav_request : request :=
  mk_request (Raise (OtherError "UnsupportedMediaType" "415 Unsupported Media Type"))
             [("audio", mk_upload "clip.wav" [])].

(** A JSON body with a text. *)
Definition hello_request : request :=
  mk_request (Ok (PDict [("text", PStr "  hello ")])) [].

(** Scores outside of the probabilities. *)
Definition out_of_range : dict Q := [ ("toxic", 3); ("insult", 1 # 4) ].

(** * Properties *)

(** ** Dictionaries and the loop of the aggregator *)

Lemma dict_set_fresh {V} (d : dict V) k v :
  ~ In k (keys d) -> dict_set d k v = (d ++ [(k, v)])%list.
Proof.
  induction d as [|[k' v'] d IH]; simpl; intros Hk; [reflexivity|].
  destruct (String.eqb_spec k' k) as [->|_].
  - exfalso; apply Hk; now left.
  - f_equal. apply IH. intros Hin. apply Hk. now right.
Qed.

Lemma keys_app {V} (d1 d2 : dict V) : keys (d1 ++ d2)%list = (keys d1 ++ keys d2)%list.
Proof. apply map_app. Qed.

(** The loop from any state: on fresh, pairwise distinct keys it
    appends the entries at the threshold, adds their scores and counts
    them. *)
Lemma scan_from (items : dict Q) : forall st,
  NoDup (keys items) ->
  (forall k, In k (keys items) -> ~ In k (keys (acc_detected st))) ->
  let st' := fold_left loop_body items st in
  acc_detected st' = (acc_detected st ++ restriction items)%list /\
  acc_score st' == acc_score st + Qsum (values (restriction items)) /\
  acc_count st' = (acc_count st + Z.of_nat (List.length (restriction items)))%Z.
Proof.
  induction items as [|[c s] items IH]; intros st Hnd Hfresh; simpl.
  - rewrite app_nil_r, Z.add_0_r. repeat split; try reflexivity. lra.
  - inversion Hnd as [|? ? Hc Hnd']; subst.
    unfold TOXICITY_THRESHOLD, at_threshold; simpl snd.
    assert (Heq : Qle_bool (5 # 10) s = Qle_bool (1 # 2) s).
    { apply Qleb_comp; reflexivity. }
    rewrite Heq. destruct (Qle_bool (1 # 2) s) eqn:Hs.
    + assert (Hset : dict_set (acc_detected st) c s = (acc_detected st ++ [(c, s)])%list).
      { apply dict_set_fresh. apply Hfresh. now left. }
      rewrite Hset.
      destruct (IH (mk_loop (acc_detected st ++ [(c, s)])%list
                            (acc_score st + s) (acc_count st + 1)%Z) Hnd')
        as (Hd & Hq & Hn).
      * simpl. intros k Hk. rewrite keys_app. simpl. rewrite in_app_iff.
        intros [Hin|[<-|[]]].
        -- revert Hin. apply Hfresh. now right.
        -- apply Hc. exact Hk.
      * simpl in Hd, Hq, Hn. rewrite Hd, Hq, Hn, <- app_assoc. simpl.
        repeat split; try reflexivity; try lra.
        rewrite Zpos_P_of_succ_nat. lia.
    + apply IH; [assumption|]. intros k Hk. apply Hfresh. now right.
Qed.

Lemma scan_scores_spec (raw_scores : dict Q) :
  NoDup (keys raw_scores) ->
  acc_detected (scan_scores raw_scores) = restriction raw_scores /\
  acc_score (scan_scores raw_scores) == Qsum (values (restriction raw_scores)) /\
  acc_count (scan_scores raw_scores) = Z.of_nat (List.length (restriction raw_scores)).
Proof.
  intros Hnd. destruct (scan_from raw_scores loop_init Hnd) as (Hd & Hq & Hn).
  - intros k _ [].
  - unfold scan_scores. simpl in *. rewrite Hd, Hq, Hn.
    repeat split; try reflexivity. lra.
Qed.

Lemma categories_NoDup : NoDup (keys DETOXIFY_CATEGORIES).
Proof.
  unfold DETOXIFY_CATEGORIES, keys; simpl.
  repeat (constructor; [simpl; intuition discriminate|]).
  constructor.
Qed.

Lemma six_categories_NoDup raw_scores :
  six_categories raw_scores -> NoDup (keys raw_scores).
Proof.
  intros H. apply Permutation_NoDup with (l := keys DETOXIFY_CATEGORIES).
  - symmetry. exact H.
  - exact categories_NoDup.
Qed.

Lemma six_categories_nonempty raw_scores :
  six_categories raw_scores -> raw_scores <> [].
Proof.
  intros H ->. apply Permutation_length in H. discriminate H.
Qed.

(** ** Built-in [max] and [min] *)

Lemma Qlt_bool_true x y : Qlt_bool x y = true <-> x < y.
Proof.
  unfold Qlt_bool. rewrite negb_true_iff, <- not_true_iff_false, Qle_bool_iff.
  split; [apply Qnot_le_lt | apply Qlt_not_le].
Qed.

Lemma Qlt_bool_false x y : Qlt_bool x y = false <-> y <= x.
Proof.
  unfold Qlt_bool. rewrite negb_false_iff. apply Qle_bool_iff.
Qed.

Lemma running_max (xs : list Q) : forall x,
  let m := fold_left (fun m y => if Qlt_bool m y then y else m) xs x in
  In m (x :: xs) /\ x <= m /\ Forall (fun y => y <= m) xs.
Proof.
  induction xs as [|y xs IH]; intros x; simpl.
  - split; [now left|]. split; [apply Qle_refl | constructor].
  - destruct (Qlt_bool x y) eqn:Hxy.
    + apply Qlt_bool_true in Hxy.
      destruct (IH y) as (Hin & Hle & Hall). simpl in Hin.
      split; [now right|]. split; [lra|].
      constructor; assumption.
    + apply Qlt_bool_false in Hxy.
      destruct (IH x) as (Hin & Hle & Hall). simpl in Hin.
      split; [destruct Hin; [now left | now right; right]|].
      split; [assumption|]. constructor; [lra | assumption].
Qed.

Lemma py_max_spec (xs : list Q) :
  xs <> [] -> exists m, py_max xs = Ok m /\ is_maximum m xs.
Proof.
  destruct xs as [|x xs]; [congruence|]. intros _.
  eexists. split; [reflexivity|].
  destruct (running_max xs x) as (Hin & Hle & Hall).
  split; [exact Hin | constructor; assumption].
Qed.

Lemma is_maximum_unique m m' xs : is_maximum m xs -> is_maximum m' xs -> m == m'.
Proof.
  intros [Hin Hall] [Hin' Hall']. rewrite Forall_forall in Hall, Hall'.
  apply Qle_antisym; auto.
Qed.

Lemma py_min_le x y : x <= y -> py_min x y = x.
Proof.
  intros H. unfold py_min. apply Qlt_bool_false in H. now rewrite H.
Qed.

Lemma py_min_gt x y : y < x -> py_min x y = y.
Proof.
  intros H. unfold py_min. apply Qlt_bool_true in H. now rewrite H.
Qed.

Lemma py_min_Qmin x y : py_min x y == Qmin x y.
Proof.
  destruct (Qlt_le_dec y x) as [H|H].
  - rewrite (py_min_gt _ _ H). symmetry. apply Q.min_r. lra.
  - rewrite (py_min_le _ _ H). symmetry. apply Q.min_l. exact H.
Qed.

(** ** Sums and means of scores *)

Lemma Qsum_bounds (xs : list Q) :
  Forall (fun s => 0 <= s <= 1) xs ->
  0 <= Qsum xs <= inject_Z (Z.of_nat (List.length xs)).
Proof.
  induction 1 as [|x xs Hx _ IH].
  - simpl. unfold inject_Z. lra.
  - cbn [Qsum List.length]. rewrite Nat2Z.inj_succ, <- Z.add_1_r, inject_Z_plus.
    change (inject_Z 1) with 1. lra.
Qed.

Lemma length_pos_Q {A} (xs : list A) : xs <> [] -> 0 < inject_Z (Z.of_nat (List.length xs)).
Proof.
  destruct xs; [congruence|]. intros _.
  change 0 with (inject_Z 0). rewrite <- Zlt_Qlt. simpl. lia.
Qed.

Lemma mean_bounds (xs : list Q) :
  xs <> [] -> Forall (fun s => 0 <= s <= 1) xs -> 0 <= mean xs <= 1.
Proof.
  intros Hne Hall. unfold mean.
  pose proof (length_pos_Q xs Hne) as Hpos.
  pose proof (Qsum_bounds xs Hall) as [H0 H1].
  split.
  - apply Qle_shift_div_l; [assumption | lra].
  - apply Qle_shift_div_r; [assumption | lra].
Qed.

Lemma restriction_probabilities raw_scores :
  probabilities raw_scores ->
  Forall (fun s => 0 <= s <= 1) (values (restriction raw_scores)).
Proof.
  unfold probabilities, values, restriction. rewrite !Forall_forall.
  intros H s Hin. apply in_map_iff in Hin. destruct Hin as [kv [<- Hin]].
  apply filter_In in Hin. apply H. apply in_map. tauto.
Qed.

Lemma restriction_nonempty raw_scores :
  restriction raw_scores <> [] <->
  exists c s, In (c, s) raw_scores /\ 1 # 2 <= s.
Proof.
  unfold restriction. split.
  - destruct (filter at_threshold raw_scores) as [|[c s] rest] eqn:Hf; [congruence|].
    intros _. assert (Hin : In (c, s) (filter at_threshold raw_scores)).
    { rewrite Hf. now left. }
    apply filter_In in Hin. destruct Hin as [Hin Hs].
    exists c, s. split; [assumption|]. now apply Qle_bool_iff.
  - intros (c & s & Hin & Hs) Hnil.
    assert (Hf : In (c, s) (filter at_threshold raw_scores)).
    { apply filter_In. split; [assumption|]. now apply Qle_bool_iff. }
    rewrite Hnil in Hf. exact Hf.
Qed.

Lemma restriction_empty_below raw_scores :
  Forall (fun s => s < 1 # 2) (values raw_scores) -> restriction raw_scores = [].
Proof.
  intros Hall. destruct (restriction raw_scores) eqn:Hr; [reflexivity|].
  assert (Hne : restriction raw_scores <> []) by (rewrite Hr; discriminate).
  apply restriction_nonempty in Hne. destruct Hne as (c & s & Hin & Hs).
  rewrite Forall_forall in Hall. specialize (Hall s).
  assert (s < 1 # 2). { apply Hall. unfold values. apply (in_map snd _ _ Hin). }
  lra.
Qed.

(** ** The aggregator *)

Lemma weighted_score_detected raw_scores :
  NoDup (keys raw_scores) -> restriction raw_scores <> [] ->
  exists w, weighted_score raw_scores (scan_scores raw_scores) = Ok w /\
            w == 100 * mean (values (restriction raw_scores)).
Proof.
  intros Hnd Hne. destruct (scan_scores_spec raw_scores Hnd) as (_ & Hq & Hn).
  unfold weighted_score. rewrite Hn.
  assert (Hpos : (0 <? Z.of_nat (List.length (restriction raw_scores)))%Z = true).
  { apply Z.ltb_lt. destruct (restriction raw_scores); [congruence | simpl; lia]. }
  rewrite Hpos. eexists. split; [reflexivity|].
  unfold mean. unfold values in *. rewrite length_map, Hq.
  pose proof (length_pos_Q _ Hne) as Hlen.
  set (n := inject_Z (Z.of_nat (List.length (restriction raw_scores)))) in *.
  field. lra.
Qed.

Lemma weighted_score_fallback raw_scores :
  NoDup (keys raw_scores) -> restriction raw_scores = [] ->
  weighted_score raw_scores (scan_scores raw_scores) =
  rbind (py_max (values raw_scores)) (fun m => Ok (m * 50)).
Proof.
  intros Hnd He. destruct (scan_scores_spec raw_scores Hnd) as (_ & _ & Hn).
  unfold weighted_score. rewrite Hn, He. reflexivity.
Qed.

Lemma toxic_flag (d : dict Q) :
  (0 <? Z.of_nat (List.length d))%Z = true <-> d <> [].
Proof.
  rewrite Z.ltb_lt. destruct d; simpl; split; try congruence; try lia.
Qed.

Lemma aggregate_scores_shape raw_scores w :
  NoDup (keys raw_scores) ->
  weighted_score raw_scores (scan_scores raw_scores) = Ok w ->
  aggregate_scores raw_scores =
  Ok {| detected_categories := restriction raw_scores;
        overall_score := py_min w 100;
        all_scores := raw_scores;
        is_toxic := (0 <? Z.of_nat (List.length (restriction raw_scores)))%Z |}.
Proof.
  intros Hnd Hw. destruct (scan_scores_spec raw_scores Hnd) as (Hd & _ & _).
  unfold aggregate_scores. rewrite Hw. simpl. rewrite Hd. reflexivity.
Qed.

Lemma aggregate_scores_uncapped_shape raw_scores w :
  NoDup (keys raw_scores) ->
  weighted_score raw_scores (scan_scores raw_scores) = Ok w ->
  aggregate_scores_uncapped raw_scores =
  Ok {| detected_categories := restriction raw_scores;
        overall_score := w;
        all_scores := raw_scores;
        is_toxic := (0 <? Z.of_nat (List.length (restriction raw_scores)))%Z |}.
Proof.
  intros Hnd Hw. destruct (scan_scores_spec raw_scores Hnd) as (Hd & _ & _).
  unfold aggregate_scores_uncapped. rewrite Hw. simpl. rewrite Hd. reflexivity.
Qed.

(** On a non-empty dictionary the weighted score exists; with
    probabilities it lies between 0 and 100. *)
Lemma weighted_score_total raw_scores :
  NoDup (keys raw_scores) -> raw_scores <> [] ->
  exists w, weighted_score raw_scores (scan_scores raw_scores) = Ok w.
Proof.
  intros Hnd Hne. destruct (restriction raw_scores) eqn:Hr.
  - rewrite (weighted_score_fallback _ Hnd Hr).
    destruct (py_max_spec (values raw_scores)) as (m & Hm & _).
    + destruct raw_scores; [congruence | discriminate].
    + rewrite Hm. simpl. eauto.
  - destruct (weighted_score_detected raw_scores Hnd) as (w & Hw & _).
    + rewrite Hr. discriminate.
    + eauto.
Qed.

Lemma weighted_score_bounds raw_scores w :
  NoDup (keys raw_scores) -> probabilities raw_scores ->
  weighted_score raw_scores (scan_scores raw_scores) = Ok w ->
  0 <= w <= 100.
Proof.
  intros Hnd Hp Hw. destruct (restriction raw_scores) eqn:Hr.
  - rewrite (weighted_score_fallback _ Hnd Hr) in Hw.
    destruct (values raw_scores) as [|x xs] eqn:Hv; [discriminate Hw|].
    destruct (py_max_spec (x :: xs)) as (m & Hm & Hin & _); [discriminate|].
    rewrite Hm in Hw. simpl in Hw. injection Hw as <-.
    unfold probabilities in Hp. rewrite Hv, Forall_forall in Hp.
    specialize (Hp m Hin). lra.
  - assert (Hne : restriction raw_scores <> []) by (rewrite Hr; discriminate).
    destruct (weighted_score_detected raw_scores Hnd Hne) as (w' & Hw' & Hmean).
    rewrite Hw in Hw'. injection Hw' as <-.
    assert (Hv : values (restriction raw_scores) <> []).
    { unfold values. rewrite Hr. discriminate. }
    pose proof (mean_bounds _ Hv (restriction_probabilities _ Hp)). lra.
Qed.

Lemma one_detected_six : six_categories one_detected.
Proof. apply Permutation_refl. Qed.

Lemma one_detected_probabilities : probabilities one_detected.
Proof.
  unfold probabilities, one_detected, values; simpl.
  repeat (constructor; [split; discriminate|]). constructor.
Qed.

Lemma none_detected_six : six_categories none_detected.
Proof. apply Permutation_refl. Qed.

Lemma none_detected_below : Forall (fun s => s < 1 # 2) (values none_detected).
Proof.
  unfold none_detected, values; simpl.
  repeat (constructor; [reflexivity|]). constructor.
Qed.

(** C1: on scores for the six categories, each a probability, the
    aggregator returns a verdict whose detected categories are exactly
    the entries at or above 0.5; when there are some, the overall score
    is 100 times their mean, capped at 100; the verdict is toxic exactly
    when some category is detected; and all scores are the input
    unchanged. *)
Theorem aggregate_scores_verdict (raw_scores : dict Q) :
  six_categories raw_scores -> probabilities raw_scores ->
  exists v,
    aggregate_scores raw_scores = Ok v /\
    detected_categories v = restriction raw_scores /\
    (detected_categories v <> [] ->
     overall_score v == Qmin (100 * mean (values (detected_categories v))) 100) /\
    (is_toxic v = true <-> detected_categories v <> []) /\
    all_scores v = raw_scores.
Proof.
  intros Hsix _.
  pose proof (six_categories_NoDup _ Hsix) as Hnd.
  destruct (weighted_score_total raw_scores Hnd (six_categories_nonempty _ Hsix))
    as [w Hw].
  eexists. split; [apply (aggregate_scores_shape _ _ Hnd Hw)|]. simpl.
  split; [reflexivity|]. split; [|split; [apply toxic_flag | reflexivity]].
  intros Hne.
  destruct (weighted_score_detected raw_scores Hnd Hne) as (w' & Hw' & Hmean).
  rewrite Hw in Hw'. injection Hw' as <-.
  rewrite py_min_Qmin, Hmean. reflexivity.
Qed.

Lemma aggregate_scores_verdict_witness :
  exists v,
    aggregate_scores one_detected = Ok v /\
    detected_categories v = restriction one_detected /\
    (detected_categories v <> [] ->
     overall_score v == Qmin (100 * mean (values (detected_categories v))) 100) /\
    (is_toxic v = true <-> detected_categories v <> []) /\
    all_scores v = one_detected.
Proof.
  apply (aggregate_scores_verdict one_detected).
  - exact one_detected_six.
  - exact one_detected_probabilities.
Defined.

(** C3: on scores for the six categories, each a probability, the
    overall score of the verdict lies between 0 and 100, and the verdict
    is toxic if and only if some category scores 0.5 or more. *)
Theorem overall_score_range (raw_scores : dict Q) :
  six_categories raw_scores -> probabilities raw_scores ->
  exists v,
    aggregate_scores raw_scores = Ok v /\
    0 <= overall_score v <= 100 /\
    (is_toxic v = true <-> exists c s, In (c, s) raw_scores /\ 1 # 2 <= s).
Proof.
  intros Hsix Hp.
  pose proof (six_categories_NoDup _ Hsix) as Hnd.
  destruct (weighted_score_total raw_scores Hnd (six_categories_nonempty _ Hsix))
    as [w Hw].
  pose proof (weighted_score_bounds _ _ Hnd Hp Hw) as Hb.
  eexists. split; [apply (aggregate_scores_shape _ _ Hnd Hw)|]. simpl.
  split.
  - rewrite py_min_le; [exact Hb | apply Hb].
  - rewrite toxic_flag. apply restriction_nonempty.
Qed.

Lemma overall_score_range_witness :
  exists v,
    aggregate_scores one_detected = Ok v /\
    0 <= overall_score v <= 100 /\
    (is_toxic v = true <-> exists c s, In (c, s) one_detected /\ 1 # 2 <= s).
Proof.
  apply (overall_score_range one_detected).
  - exact one_detected_six.
  - exact one_detected_probabilities.
Defined.

(** C5: when every one of the six scores is strictly below 0.5, the
    verdict is not toxic and its overall score is 50 times the largest
    raw score; with a largest score of 0.3 it is 15. *)
Theorem below_threshold_fallback (raw_scores : dict Q) :
  six_categories raw_scores ->
  Forall (fun s => s < 1 # 2) (values raw_scores) ->
  exists v m,
    aggregate_scores raw_scores = Ok v /\
    is_maximum m (values raw_scores) /\
    overall_score v == 50 * m /\
    is_toxic v = false /\
    (m == 3 # 10 -> overall_score v == 15).
Proof.
  intros Hsix Hlow.
  pose proof (six_categories_NoDup _ Hsix) as Hnd.
  pose proof (restriction_empty_below _ Hlow) as Hr.
  destruct (py_max_spec (values raw_scores)) as (m & Hm & Hmax).
  { pose proof (six_categories_nonempty _ Hsix).
    destruct raw_scores; [congruence | discriminate]. }
  assert (Hw : weighted_score raw_scores (scan_scores raw_scores) = Ok (m * 50)).
  { rewrite (weighted_score_fallback _ Hnd Hr), Hm. reflexivity. }
  assert (Hm50 : m * 50 <= 100).
  { destruct Hmax as [Hin _]. rewrite Forall_forall in Hlow.
    specialize (Hlow m Hin). lra. }
  eexists. exists m. split; [apply (aggregate_scores_shape _ _ Hnd Hw)|]. simpl.
  rewrite (py_min_le _ _ Hm50), Hr. simpl.
  split; [exact Hmax|]. split; [lra|]. split; [reflexivity|].
  intros ->. reflexivity.
Qed.

Lemma below_threshold_fallback_witness :
  exists v m,
    aggregate_scores none_detected = Ok v /\
    is_maximum m (values none_detected) /\
    overall_score v == 50 * m /\
    is_toxic v = false /\
    (m == 3 # 10 -> overall_score v == 15).
Proof.
  apply (below_threshold_fallback none_detected).
  - exact none_detected_six.
  - exact none_detected_below.
Defined.

(** C8: on scores for the six categories, each a probability, the cap
    at 100 changes nothing: the aggregator and the same function without
    the cap return the same verdict, 100 times the mean of the detected
    scores is at most 100, and 50 times the largest score is at most
    50. *)
Theorem cap_is_noop (raw_scores : dict Q) :
  six_categories raw_scores -> probabilities raw_scores ->
  aggregate_scores raw_scores = aggregate_scores_uncapped raw_scores /\
  (restriction raw_scores <> [] ->
   mean (values (restriction raw_scores)) <= 1 /\
   100 * mean (values (restriction raw_scores)) <= 100) /\
  (forall m, py_max (values raw_scores) = Ok m -> m * 50 <= 50).
Proof.
  intros Hsix Hp.
  pose proof (six_categories_NoDup _ Hsix) as Hnd.
  destruct (weighted_score_total raw_scores Hnd (six_categories_nonempty _ Hsix))
    as [w Hw].
  pose proof (weighted_score_bounds _ _ Hnd Hp Hw) as [_ Hb].
  split; [|split].
  - rewrite (aggregate_scores_shape _ _ Hnd Hw).
    rewrite (aggregate_scores_uncapped_shape _ _ Hnd Hw).
    rewrite (py_min_le _ _ Hb). reflexivity.
  - intros Hne.
    assert (Hv : values (restriction raw_scores) <> []).
    { unfold values. destruct (restriction raw_scores); [congruence | discriminate]. }
    pose proof (mean_bounds _ Hv (restriction_probabilities _ Hp)). lra.
  - intros m Hm.
    destruct (values raw_scores) as [|x xs] eqn:Hv; [discriminate Hm|].
    destruct (py_max_spec (x :: xs)) as (m' & Hm' & Hin & _); [discriminate|].
    rewrite Hm in Hm'. injection Hm' as <-.
    unfold probabilities in Hp. rewrite Hv, Forall_forall in Hp.
    specialize (Hp m Hin). lra.
Qed.

Lemma cap_is_noop_witness :
  aggregate_scores one_detected = aggregate_scores_uncapped one_detected /\
  (restriction one_detected <> [] ->
   mean (values (restriction one_detected)) <= 1 /\
   100 * mean (values (restriction one_detected)) <= 100) /\
  (forall m, py_max (values one_detected) = Ok m -> m * 50 <= 50).
Proof.
  apply (cap_is_noop one_detected).
  - exact one_detected_six.
  - exact one_detected_probabilities.
Defined.

(** C6, the claim fails: on the empty dictionary the aggregator does
    not fail with an [InputError]. *)
Lemma empty_scores_no_InputError :
  ~ (exists e, aggregate_scores [] = Raise e /\ is_InputError e).
Proof.
  intros (e & He & msg & Hmsg). subst e. discriminate He.
Qed.

(** C6, as amended: on the empty dictionary nothing guards the
    computation; the loop detects nothing, [max] is called on the empty
    sequence of values, and the [ValueError] it raises is how the
    aggregator fails. *)
Theorem aggregate_scores_empty :
  scan_scores [] = loop_init /\
  weighted_score [] (scan_scores []) = rbind (py_max (values ([] : dict Q)))
                                             (fun m => Ok (m * 50)) /\
  py_max (values ([] : dict Q)) = Raise ValueError /\
  aggregate_scores [] = Raise ValueError.
Proof. repeat split. Qed.

(** ** File names and extensions *)

Lemma prefix_dot c s : prefix "." (String c s) = Ascii.eqb c ".".
Proof.
  destruct (Ascii.eqb_spec c ".") as [->|Hc].
  - apply prefix_correct. simpl. now destruct s.
  - apply not_true_is_false. intros H. apply prefix_correct in H.
    simpl in H. apply Hc. now injection H.
Qed.

Lemma contains_dot s : str_contains "." s = true <-> In "."%char (chars s).
Proof.
  unfold str_contains. induction s as [|c s IH].
  - simpl. split; [discriminate | tauto].
  - cbn [index chars list_ascii_of_string In]. rewrite prefix_dot.
    destruct (Ascii.eqb_spec c ".") as [->|Hc].
    + split; auto.
    + fold (chars s). destruct (index 0 "." s).
      * split; [intros _; right; now apply IH | reflexivity].
      * split; [discriminate|]. intros [Heq|Hin]; [congruence|].
        now apply IH.
Qed.

Lemma split_last_none sep s :
  split_last sep s = None <-> ~ In sep (chars s).
Proof.
  induction s as [|c s IH]; simpl.
  - tauto.
  - fold (chars s). destruct (split_last sep s) as [[h t]|].
    + split; [discriminate|]. intros Hn. exfalso.
      assert (Hs : ~ In sep (chars s)) by tauto.
      apply IH in Hs. discriminate Hs.
    + destruct (Ascii.eqb_spec c sep) as [->|Hc].
      * split; [discriminate | tauto].
      * split; [|reflexivity]. intros _ [Heq|Hin]; [congruence|].
        revert Hin. now apply IH.
Qed.

Lemma split_last_some sep s h t :
  split_last sep s = Some (h, t) <->
  s = h ++ String sep t /\ ~ In sep (chars t).
Proof.
  revert h. induction s as [|c s IH]; intros h; simpl.
  - split; [discriminate|]. intros [H _]. destruct h; discriminate H.
  - destruct (split_last sep s) as [[h' t']|] eqn:Hs.
    + split.
      * intros H. injection H as <- <-.
        destruct (proj1 (IH h') eq_refl) as [-> Ht]. split; [reflexivity | exact Ht].
      * intros [Heq Ht]. destruct h as [|a h]; simpl in Heq.
        -- injection Heq as -> ->. apply split_last_none in Ht. congruence.
        -- injection Heq as -> Heq.
           assert (H : Some (h', t') = Some (h, t)) by (apply IH; auto).
           now injection H as -> ->.
    + apply split_last_none in Hs.
      destruct (Ascii.eqb_spec c sep) as [->|Hc].
      * split.
        -- intros H. injection H as <- <-. split; [reflexivity | exact Hs].
        -- intros [Heq Ht]. destruct h as [|a h]; simpl in Heq.
           ++ now injection Heq as ->.
           ++ injection Heq as -> Heq. exfalso. apply Hs. rewrite Heq.
              clear. induction h; simpl; auto.
      * split; [discriminate|]. intros [Heq Ht].
        destruct h as [|a h]; simpl in Heq.
        -- injection Heq as ->. congruence.
        -- injection Heq as -> Heq. exfalso. apply Hs. rewrite Heq.
           clear. induction h; simpl; auto.
Qed.

Lemma str_in_spec s xs : str_in s xs = true <-> In s xs.
Proof.
  unfold str_in. rewrite existsb_exists. split.
  - intros (x & Hin & Heq). apply String.eqb_eq in Heq. now subst.
  - intros Hin. exists s. split; [assumption | apply String.eqb_refl].
Qed.

(** What [allowed_audio_file] returns: never an exception, and [True]
    exactly for the names with an allowed extension. *)
Lemma allowed_audio_file_value filename :
  exists b, allowed_audio_file filename = Ok b /\
            (b = true <-> has_allowed_extension filename).
Proof.
  unfold allowed_audio_file, rsplit1.
  destruct (str_contains "." filename) eqn:Hdot.
  - apply contains_dot in Hdot.
    destruct (split_last "." filename) as [[h t]|] eqn:Hs.
    + cbn [py_index nth_error rbind]. eexists. split; [reflexivity|].
      apply split_last_some in Hs. destruct Hs as [-> Ht].
      rewrite str_in_spec. split.
      * intros Hin. exists h, t. auto.
      * intros (stem & ext & Heq & Hext & Hin).
        assert (H : Some (h, t) = Some (stem, ext)).
        { rewrite <- (proj2 (split_last_some "." (h ++ String "." t) h t)) by auto.
          apply split_last_some. auto. }
        now injection H as -> ->.
    + apply split_last_none in Hs. contradiction.
  - exists false. split; [reflexivity|]. split; [discriminate|].
    intros (stem & ext & -> & _ & _).
    assert (H : str_contains "." (stem ++ "." ++ ext) = true).
    { apply contains_dot. clear. induction stem; simpl; auto. }
    congruence.
Qed.

(** C10: [allowed_audio_file] returns true if and only if the file name
    has a dot and what follows its last dot is, in lower case, one of
    wav, mp3, m4a, flac and aac; otherwise it returns false; so
    the check ignores case, CLIP.WAV is accepted, and a name without a
    dot is rejected. *)
Theorem allowed_audio_file_spec :
  (forall filename,
     (allowed_audio_file filename = Ok true <-> has_allowed_extension filename) /\
     (allowed_audio_file filename = Ok false <-> ~ has_allowed_extension filename)) /\
  (forall stem ext ext',
     ~ In "."%char (chars ext) -> ~ In "."%char (chars ext') ->
     lower ext = lower ext' ->
     allowed_audio_file (stem ++ "." ++ ext) = allowed_audio_file (stem ++ "." ++ ext')) /\
  allowed_audio_file "CLIP.WAV" = Ok true /\
  (forall filename,
     ~ In "."%char (chars filename) -> allowed_audio_file filename = Ok false).
Proof.
  split; [|split; [|split]].
  - intros filename.
    destruct (allowed_audio_file_value filename) as (b & Hb & Hiff).
    rewrite Hb. destruct b.
    + assert (Hx : has_allowed_extension filename) by now apply Hiff.
      split; split; intros H; try assumption; try reflexivity.
      * discriminate H.
      * contradiction.
    + assert (Hx : ~ has_allowed_extension filename).
      { intros H. apply Hiff in H. discriminate H. }
      split; split; intros H; try assumption; try reflexivity.
      * discriminate H.
      * contradiction.
  - intros stem ext ext' He He' Hl.
    unfold allowed_audio_file, rsplit1.
    assert (Hd : forall e, str_contains "." (stem ++ "." ++ e) = true).
    { intros e. apply contains_dot. clear. induction stem; simpl; auto. }
    rewrite !Hd.
    rewrite (proj2 (split_last_some "." (stem ++ "." ++ ext) stem ext)) by auto.
    rewrite (proj2 (split_last_some "." (stem ++ "." ++ ext') stem ext')) by auto.
    cbn [py_index nth_error rbind]. now rewrite Hl.
  - reflexivity.
  - intros filename Hn. unfold allowed_audio_file.
    destruct (str_contains "." filename) eqn:Hdot; [|reflexivity].
    apply contains_dot in Hdot. contradiction.
Qed.

(** ** The audio handler *)

Lemma clip_txt_rejected : ~ has_allowed_extension "clip.txt".
Proof.
  destruct (allowed_audio_file_value "clip.txt") as (b & Hb & Hiff).
  intros H. apply Hiff in H. subst b. discriminate Hb.
Qed.

(** C7: an audio upload with a file name whose extension is not
    allowed is answered with status 400 and the message about the
    supported formats, and the log of calls stays empty: neither the
    adapter nor the aggregator is invoked. *)
Theorem audio_invalid_format
    (detox_model_predict : string -> dict Q) (str_exn : exn -> string)
    (audio_clip : Type) (load_audio : bytes -> result audio_clip)
    (recognize_google : audio_clip -> result string)
    (req : request) (audio_file : upload) :
  dict_get (files req) "audio" = Some audio_file ->
  filename audio_file <> "" ->
  ~ has_allowed_extension (filename audio_file) ->
  analyze_audio_route detox_model_predict str_exn audio_clip load_audio
                      recognize_google req =
  ({| status := 400;
      payload := ErrorBody "Invalid audio format. Supported: WAV, MP3, M4A, FLAC, AAC" |},
   []).
Proof.
  intros Hfile Hname Hext.
  destruct (allowed_audio_file_value (filename audio_file)) as (b & Hb & Hiff).
  assert (b = false) as ->.
  { destruct b; [|reflexivity]. exfalso. apply Hext. now apply Hiff. }
  unfold analyze_audio_route, try_except. rewrite Hfile.
  apply String.eqb_neq in Hname. rewrite Hname.
  unfold bind, lift. rewrite Hb. reflexivity.
Qed.

Lemma audio_invalid_format_witness :
  analyze_audio_route (fun _ => none_detected) sample_str unit
                      (fun _ => Ok tt) (fun _ => Ok "hello") clip_txt_request =
  ({| status := 400;
      payload := ErrorBody "Invalid audio format. Supported: WAV, MP3, M4A, FLAC, AAC" |},
   []).
Proof.
  apply (audio_invalid_format (fun _ => none_detected) sample_str unit
           (fun _ => Ok tt) (fun _ => Ok "hello") clip_txt_request
           (mk_upload "clip.txt" [])).
  - reflexivity.
  - simpl. discriminate.
  - exact clip_txt_rejected.
Defined.

(** The sentinel of the audio adapter is short-circuited. *)
Lemma audio_sentinel_short_circuit
    (detox_model_predict : string -> dict Q) (str_exn : exn -> string)
    (audio_clip : Type) (clip : audio_clip) (j : result pyval) (data : bytes) :
  analyze_audio_route detox_model_predict str_exn audio_clip
    (fun _ => Ok clip) (fun _ => Raise UnknownValueError)
    (mk_request j [("audio", mk_upload "clip.wav" data)]) =
  (jsonify (VerdictBody zero_verdict (Some "Could not understand audio")),
   [CallSpeechToText data "clip.wav"]).
Proof. reflexivity. Qed.

(** C2, where the code departs from the claim: the error strings of
    [speech_to_text] do not start with Error, so the handler does not
    short-circuit them; it passes them to [analyze_toxicity] and answers
    with the verdict of the classifier on the error string.  This holds
    for a failure while the audio is processed and for a request error
    of the recognition service. *)
Theorem audio_error_reaches_aggregator
    (detox_model_predict : string -> dict Q) (str_exn : exn -> string)
    (audio_clip : Type) (clip : audio_clip)
    (recognize_google : audio_clip -> result string)
    (j : result pyval) (data : bytes) (e : exn) (msg : string) :
  let req := mk_request j [("audio", mk_upload "clip.wav" data)] in
  let answer text :=
    (match analyze_toxicity detox_model_predict text with
     | Ok v => jsonify (VerdictBody v (Some text))
     | Raise e' =>
         jsonify_status (ErrorBody ("Audio analysis failed: " ++ str_exn e')) 500
     end,
     [CallSpeechToText data "clip.wav"; CallAnalyzeToxicity text]) in
  analyze_audio_route detox_model_predict str_exn audio_clip
    (fun _ => Raise e) recognize_google req =
  answer ("Audio processing error: " ++ str_exn e) /\
  analyze_audio_route detox_model_predict str_exn audio_clip
    (fun _ => Ok clip) (fun _ => Raise (RequestError msg)) req =
  answer ("Speech recognition error: " ++ str_exn (RequestError msg)).
Proof.
  split.
  - unfold analyze_audio_route, try_except, bind, lift, call_speech_to_text,
      call_analyze_toxicity, logged, ret, speech_to_text. simpl.
    destruct (analyze_toxicity detox_model_predict _); reflexivity.
  - unfold analyze_audio_route, try_except, bind, lift, call_speech_to_text,
      call_analyze_toxicity, logged, ret, speech_to_text. simpl.
    destruct (analyze_toxicity detox_model_predict _); reflexivity.
Qed.

(** The image handler next to it does short-circuit the error string of
    its adapter, which starts with Error. *)
Lemma image_error_short_circuit
    (detox_model_predict : string -> dict Q) (str_exn : exn -> string)
    (j : result pyval) (data : bytes) (e : exn) :
  analyze_image_route detox_model_predict str_exn (fun _ => Raise e)
    (mk_request j [("image", mk_upload "scan.png" data)]) =
  (jsonify (VerdictBody zero_verdict (Some ("Error extracting text: " ++ str_exn e))),
   [CallExtractText data]).
Proof. reflexivity. Qed.

Example audio_error_scored :
  analyze_audio_route (fun _ => none_detected) sample_str unit
    (fun _ => Raise (OtherError "CouldntDecodeError" "Decoding failed"))
    (fun _ => Ok "hello")
    (mk_request (Raise TypeError) [("audio", mk_upload "clip.wav" [])]) =
  (jsonify (VerdictBody {| detected_categories := [];
                           overall_score := (3 # 10) * 50;
                           all_scores := none_detected;
                           is_toxic := false |}
                        (Some "Audio processing error: Decoding failed")),
   [CallSpeechToText [] "clip.wav";
    CallAnalyzeToxicity "Audio processing error: Decoding failed"]).
Proof. reflexivity. Qed.

(** ** Verdicts in responses *)

Lemma keys_convert (d : dict Q) : keys (convert_float32_to_float d) = keys d.
Proof.
  unfold keys, convert_float32_to_float. rewrite map_map. reflexivity.
Qed.

Lemma aggregate_scores_invariant raw_scores v :
  NoDup (keys raw_scores) -> aggregate_scores raw_scores = Ok v -> verdict_invariant v.
Proof.
  intros Hnd Hv.
  destruct (weighted_score raw_scores (scan_scores raw_scores)) as [w|e] eqn:Hw.
  - rewrite (aggregate_scores_shape _ _ Hnd Hw) in Hv. injection Hv as <-.
    split; simpl; [reflexivity | apply toxic_flag].
  - unfold aggregate_scores in Hv. rewrite Hw in Hv. discriminate Hv.
Qed.

Lemma analyze_toxicity_invariant (detox_model_predict : string -> dict Q) text v :
  (forall t, NoDup (keys (detox_model_predict t))) ->
  analyze_toxicity detox_model_predict text = Ok v -> verdict_invariant v.
Proof.
  intros Hnd. apply aggregate_scores_invariant.
  unfold predict_detox. rewrite keys_convert. apply Hnd.
Qed.

Lemma zero_verdict_invariant : verdict_invariant zero_verdict.
Proof.
  split; [reflexivity|]. simpl. split; [discriminate | congruence].
Qed.

Lemma text_route_outcome (detox_model_predict : string -> dict Q)
    (str_exn : exn -> string) (req : request) :
  from_handler detox_model_predict
    (fst (analyze_text_route detox_model_predict str_exn req))
    (snd (analyze_text_route detox_model_predict str_exn req)).
Proof.
  unfold analyze_text_route. run_handler.
  destruct (get_json req) as [data|e]; simpl; [|settle_outcome].
  destruct (no_text data) as [[|]|e]; simpl; try settle_outcome.
  destruct (py_getitem data "text") as [field|e]; simpl; [|settle_outcome].
  destruct (py_strip field) as [text|e]; simpl; [|settle_outcome].
  destruct (String.eqb text ""); simpl; [settle_outcome|].
  destruct (analyze_toxicity detox_model_predict text) eqn:Hv; simpl; settle_outcome.
Qed.

Lemma image_route_outcome (detox_model_predict : string -> dict Q)
    (str_exn : exn -> string) (ocr_read : bytes -> result (list string))
    (req : request) :
  from_handler detox_model_predict
    (fst (analyze_image_route detox_model_predict str_exn ocr_read req))
    (snd (analyze_image_route detox_model_predict str_exn ocr_read req)).
Proof.
  unfold analyze_image_route. run_handler.
  destruct (dict_get (files req) "image") as [image_file|]; simpl; [|settle_outcome].
  destruct (String.eqb (filename image_file) ""); simpl; [settle_outcome|].
  set (text := extract_text_from_image str_exn ocr_read (content image_file)).
  destruct (startswith text "Error" || String.eqb text "No text detected in image");
    simpl; [settle_outcome|].
  destruct (analyze_toxicity detox_model_predict text) eqn:Hv; simpl; settle_outcome.
Qed.

Lemma audio_route_outcome (detox_model_predict : string -> dict Q)
    (str_exn : exn -> string) (audio_clip : Type)
    (load_audio : bytes -> result audio_clip)
    (recognize_google : audio_clip -> result string) (req : request) :
  from_handler detox_model_predict
    (fst (analyze_audio_route detox_model_predict str_exn audio_clip load_audio
            recognize_google req))
    (snd (analyze_audio_route detox_model_predict str_exn audio_clip load_audio
            recognize_google req)).
Proof.
  unfold analyze_audio_route. run_handler.
  destruct (dict_get (files req) "audio") as [audio_file|]; simpl; [|settle_outcome].
  destruct (String.eqb (filename audio_file) ""); simpl; [settle_outcome|].
  destruct (allowed_audio_file (filename audio_file)) as [[|]|e]; simpl;
    try settle_outcome.
  set (text := speech_to_text str_exn audio_clip load_audio recognize_google
                 (content audio_file) (filename audio_file)).
  destruct (startswith text "Error" || String.eqb text "Could not understand audio");
    simpl; [settle_outcome|].
  destruct (analyze_toxicity detox_model_predict text) eqn:Hv; simpl; settle_outcome.
Qed.

Lemma none_detected_NoDup : forall t : string, NoDup (keys ((fun _ => none_detected) t)).
Proof. intros t. apply six_categories_NoDup. exact none_detected_six. Qed.

(** C9: every 200 response of the three handlers carries a verdict whose
    detected categories are exactly the entries of all scores at or
    above 0.5 and which is toxic if and only if some category is
    detected; a 200 response given without a call of the aggregator maps
    the six categories to 0, detects nothing and is not toxic.  The
    classifier returns dictionaries, so the keys of its result are
    pairwise distinct. *)
Theorem handler_verdict_invariant
    (detox_model_predict : string -> dict Q) (str_exn : exn -> string)
    (ocr_read : bytes -> result (list string))
    (audio_clip : Type) (load_audio : bytes -> result audio_clip)
    (recognize_google : audio_clip -> result string)
    (req : request) (r : response) (log : list call) :
  (forall t, NoDup (keys (detox_model_predict t))) ->
  analyze_text_route detox_model_predict str_exn req = (r, log) \/
  analyze_image_route detox_model_predict str_exn ocr_read req = (r, log) \/
  analyze_audio_route detox_model_predict str_exn audio_clip load_audio
                      recognize_google req = (r, log) ->
  status r = 200%Z ->
  exists v et,
    payload r = VerdictBody v et /\
    verdict_invariant v /\
    ((forall text, ~ In (CallAnalyzeToxicity text) log) ->
     all_scores v = [ ("toxic", 0); ("severe_toxic", 0); ("obscene", 0);
                      ("threat", 0); ("insult", 0); ("identity_hate", 0) ] /\
     detected_categories v = [] /\
     is_toxic v = false).
Proof.
  intros Hnd Hroute H200.
  assert (Hout : from_handler detox_model_predict r log).
  { destruct Hroute as [H|[H|H]].
    - pose proof (text_route_outcome detox_model_predict str_exn req) as Ho.
      now rewrite H in Ho.
    - pose proof (image_route_outcome detox_model_predict str_exn ocr_read req) as Ho.
      now rewrite H in Ho.
    - pose proof (audio_route_outcome detox_model_predict str_exn audio_clip
                    load_audio recognize_google req) as Ho.
      now rewrite H in Ho. }
  destruct Hout as [Hs|[(et & Hp & Hlog)|(v & et & text & Hp & Hv & Hlog)]].
  - contradiction.
  - exists zero_verdict, et. split; [exact Hp|]. split; [exact zero_verdict_invariant|].
    intros _. repeat split.
  - exists v, et. split; [exact Hp|].
    split; [exact (analyze_toxicity_invariant _ _ _ Hnd Hv)|].
    intros Hno. exfalso. exact (Hno text Hlog).
Qed.

Lemma handler_verdict_invariant_witness :
  exists v et,
    payload (jsonify (VerdictBody zero_verdict (Some "Could not understand audio")))
    = VerdictBody v et /\
    verdict_invariant v /\
    ((forall text,
        ~ In (CallAnalyzeToxicity text) [CallSpeechToText [] "clip.wav"]) ->
     all_scores v = [ ("toxic", 0); ("severe_toxic", 0); ("obscene", 0);
                      ("threat", 0); ("insult", 0); ("identity_hate", 0) ] /\
     detected_categories v = [] /\
     is_toxic v = false).
Proof.
  apply (handler_verdict_invariant (fun _ => none_detected) sample_str
           (fun _ => Ok []) unit (fun _ => Ok tt) (fun _ => Raise UnknownValueError)
           (mk_request (Raise TypeError) [("audio", mk_upload "clip.wav" [])])).
  - exact none_detected_NoDup.
  - right; right. reflexivity.
  - reflexivity.
Defined.

(** ** The text handler *)

Lemma no_text_true data : no_text data = Ok true <-> lacks_text data.
Proof.
  unfold no_text, lacks_text.
  destruct (truthy data); simpl.
  - destruct (py_in "text" data) as [[|]|e]; simpl; split;
      try discriminate; try (intros [H|H]; discriminate H); auto.
  - split; auto.
Qed.

Lemma py_getitem_Ok data k v :
  py_getitem data k = Ok v <-> exists d, data = PDict d /\ dict_get d k = Some v.
Proof.
  split.
  - destruct data; simpl; try discriminate.
    destruct (dict_get d k) eqn:Hd; [|discriminate].
    intros H. injection H as ->. eauto.
  - intros (d & -> & Hd). simpl. now rewrite Hd.
Qed.

Lemma no_text_present d x : dict_get d "text" = Some x -> no_text (PDict d) = Ok false.
Proof.
  intros Hd. unfold no_text.
  assert (Ht : truthy (PDict d) = true) by (destruct d; [discriminate Hd | reflexivity]).
  rewrite Ht. cbn [negb py_in]. rewrite Hd. reflexivity.
Qed.

(** The handler, branch by branch. *)
Lemma text_route_unfold (detox_model_predict : string -> dict Q)
    (str_exn : exn -> string) (req : request) :
  let failed e :=
    jsonify_status (ErrorBody ("Text analysis failed: " ++ str_exn e)) 500 in
  analyze_text_route detox_model_predict str_exn req =
  match get_json req with
  | Raise e => (failed e, [])
  | Ok data =>
      match no_text data with
      | Raise e => (failed e, [])
      | Ok true => (jsonify_status (ErrorBody "No text provided") 400, [])
      | Ok false =>
          match py_getitem data "text" with
          | Raise e => (failed e, [])
          | Ok field =>
              match py_strip field with
              | Raise e => (failed e, [])
              | Ok text =>
                  if String.eqb text "" then
                    (jsonify_status (ErrorBody "Text cannot be empty") 400, [])
                  else
                    match analyze_toxicity detox_model_predict text with
                    | Ok v => (jsonify (VerdictBody v None), [CallAnalyzeToxicity text])
                    | Raise e => (failed e, [CallAnalyzeToxicity text])
                    end
              end
          end
      end
  end.
Proof.
  unfold analyze_text_route. run_handler.
  destruct (get_json req) as [data|e]; simpl; [|reflexivity].
  destruct (no_text data) as [[|]|e]; simpl; try reflexivity.
  destruct (py_getitem data "text") as [field|e]; simpl; [|reflexivity].
  destruct (py_strip field) as [text|e]; simpl; [|reflexivity].
  destruct (String.eqb text ""); simpl; [reflexivity|].
  destruct (analyze_toxicity detox_model_predict text); reflexivity.
Qed.

(** C4, the claim fails: a body whose [text] is a number is malformed
    input, and it is answered with status 500, not 400. *)
Lemma number_text_not_400 :
  ~ (invalid_text_input number_text_request <->
     status (fst (analyze_text_route (fun _ => none_detected) sample_str
                    number_text_request)) = 400%Z).
Proof.
  intros [H _]. specialize (H I). discriminate H.
Qed.

(** C4, as amended: the text handler answers 400 with an error message
    exactly when the parsed body is empty or has no text, or its text
    is a string that is empty after trimming; for a string that is not
    empty after trimming it answers 200 with the aggregator's verdict on
    the trimmed text whenever the aggregator returns one; when the text
    is not a string, or the body cannot be parsed, it answers 500. *)
Theorem text_route_status (detox_model_predict : string -> dict Q)
    (str_exn : exn -> string) (req : request) :
  let r := fst (analyze_text_route detox_model_predict str_exn req) in
  (status r = 400%Z <->
   exists data, get_json req = Ok data /\ (lacks_text data \/ blank_text data)) /\
  (status r = 400%Z -> exists error, payload r = ErrorBody error) /\
  (forall d s v,
     get_json req = Ok (PDict d) -> dict_get d "text" = Some (PStr s) ->
     strip s <> "" -> analyze_toxicity detox_model_predict (strip s) = Ok v ->
     r = {| status := 200; payload := VerdictBody v None |}) /\
  (forall d x,
     get_json req = Ok (PDict d) -> dict_get d "text" = Some x ->
     (forall s, x <> PStr s) -> status r = 500%Z) /\
  (forall e, get_json req = Raise e -> status r = 500%Z).
Proof.
  intros r. subst r. rewrite text_route_unfold.
  destruct (get_json req) as [data|e] eqn:Hj; simpl.
  2:{ repeat split; try discriminate.
      intros (data & Hd & _). discriminate Hd. }
  destruct (no_text data) as [[|]|e] eqn:Hno; simpl.
  - (* no text *)
    assert (Hl : lacks_text data) by now apply no_text_true.
    split; [split; [intros _; exists data; auto | reflexivity]|].
    split; [intros _; eauto|].
    split; [|split; [|discriminate]].
    + intros d s v Hd Ht. injection Hd as ->.
      rewrite (no_text_present _ _ Ht) in Hno. discriminate Hno.
    + intros d x Hd Ht. injection Hd as ->.
      rewrite (no_text_present _ _ Ht) in Hno. discriminate Hno.
  - (* text present *)
    assert (Hl : ~ lacks_text data).
    { intros H. apply no_text_true in H. congruence. }
    destruct (py_getitem data "text") as [field|e] eqn:Hg; simpl.
    + apply py_getitem_Ok in Hg. destruct Hg as (d & -> & Hd).
      destruct field as [| | | |s0| |]; simpl;
        try (split; [split; [discriminate|];
                     intros (data & Hdata & [H|(d' & s & Hd' & Ht & _)]);
                     injection Hdata as <-; [contradiction|];
                     injection Hd' as <-; congruence|];
             split; [discriminate|]; split; [|split; [reflexivity | discriminate]];
             intros d' s v Hd' Ht; injection Hd' as <-; congruence).
      destruct (String.eqb_spec (strip s0) "") as [He|He]; simpl.
      * split; [split; [intros _ | reflexivity]|].
        { exists (PDict d). split; [reflexivity|]. right. exists d, s0. auto. }
        split; [eauto|]. split; [|split; [|discriminate]].
        -- intros d' s v Hd' Ht. injection Hd' as <-.
           rewrite Hd in Ht. injection Ht as <-. contradiction.
        -- intros d' x Hd' Ht Hx. injection Hd' as <-.
           rewrite Hd in Ht. injection Ht as <-. now destruct (Hx s0).
      * assert (Hrhs : ~ exists data, Ok (A := pyval) (PDict d) = Ok data /\
                                      (lacks_text data \/ blank_text data)).
        { intros (data & Hdata & [H|(d' & s & Hd' & Ht & Hs)]);
            injection Hdata as <-; [contradiction|].
          injection Hd' as <-. rewrite Hd in Ht. injection Ht as <-. contradiction. }
        destruct (analyze_toxicity detox_model_predict (strip s0)) as [v0|e] eqn:Hv;
          simpl.
        -- split; [split; [discriminate | intros H; now destruct Hrhs]|].
           split; [discriminate|]. split; [|split; [|discriminate]].
           ++ intros d' s v Hd' Ht _ Hv'. injection Hd' as <-.
              rewrite Hd in Ht. injection Ht as <-.
              rewrite Hv in Hv'. injection Hv' as <-. reflexivity.
           ++ intros d' x Hd' Ht Hx. injection Hd' as <-.
              rewrite Hd in Ht. injection Ht as <-. now destruct (Hx s0).
        -- split; [split; [discriminate | intros H; now destruct Hrhs]|].
           split; [discriminate|]. split; [|split; [reflexivity | discriminate]].
           intros d' s v Hd' Ht _ Hv'. injection Hd' as <-.
           rewrite Hd in Ht. injection Ht as <-. congruence.
    + split.
      { split; [discriminate|].
        intros (data' & Hdata & [H|(d' & s & Hd' & Ht & _)]);
          injection Hdata as <-; [contradiction|].
        subst data. simpl in Hg. rewrite Ht in Hg. discriminate Hg. }
      split; [discriminate|]. split; [|split; [reflexivity | discriminate]].
      intros d s v Hd Ht. injection Hd as ->. simpl in Hg.
      rewrite Ht in Hg. discriminate Hg.
  - (* the membership test raises *)
    split.
    { split; [discriminate|].
      intros (data' & Hdata & [H|(d' & s & Hd' & Ht & _)]);
        injection Hdata as <-.
      - apply no_text_true in H. congruence.
      - subst data. rewrite (no_text_present _ _ Ht) in Hno. discriminate Hno. }
    split; [discriminate|]. split; [|split; [reflexivity | discriminate]].
    intros d s v Hd Ht. injection Hd as ->.
    rewrite (no_text_present _ _ Ht) in Hno. discriminate Hno.
Qed.

(** * Further properties of the code *)

(** ** The aggregator outside of the six probabilities *)

Lemma weighted_score_nonempty raw_scores st :
  raw_scores <> [] -> exists w, weighted_score raw_scores st = Ok w.
Proof.
  intros Hne. unfold weighted_score. destruct (0 <? acc_count st)%Z; [eauto|].
  destruct (py_max_spec (values raw_scores)) as (m & Hm & _).
  - destruct raw_scores; [congruence | discriminate].
  - rewrite Hm. simpl. eauto.
Qed.

Lemma aggregate_scores_total raw_scores :
  raw_scores <> [] -> exists v, aggregate_scores raw_scores = Ok v.
Proof.
  intros Hne. unfold aggregate_scores.
  destruct (weighted_score_nonempty raw_scores (scan_scores raw_scores) Hne) as [w Hw].
  rewrite Hw. simpl. eauto.
Qed.

(** X1: the aggregator fails on the empty dictionary only, and then
    with the [ValueError] of [max]; on every other dictionary it returns
    a verdict. *)
Theorem aggregate_scores_fails_iff_empty (raw_scores : dict Q) (e : exn) :
  (aggregate_scores raw_scores = Raise e <-> raw_scores = [] /\ e = ValueError) /\
  (raw_scores <> [] -> exists v, aggregate_scores raw_scores = Ok v).
Proof.
  pose proof (aggregate_scores_total raw_scores) as Htotal.
  split; [|exact Htotal]. split.
  - intros Hr. destruct raw_scores as [|item rest].
    + split; [reflexivity|].
      change (Raise (A := verdict) ValueError = Raise e) in Hr. congruence.
    + destruct Htotal as [v Hv]; [discriminate|]. congruence.
  - intros [-> ->]. reflexivity.
Qed.

(** X2: whatever the scores are, the overall score of a verdict is at
    most 100: the cap of line 77 bounds it also for scores above 1. *)
Theorem overall_score_capped (raw_scores : dict Q) (v : verdict) :
  aggregate_scores raw_scores = Ok v -> overall_score v <= 100.
Proof.
  unfold aggregate_scores.
  destruct (weighted_score raw_scores (scan_scores raw_scores)) as [w|e];
    [|discriminate].
  simpl. intros H. injection H as <-. simpl.
  destruct (Qlt_le_dec 100 w) as [Hw|Hw].
  - rewrite (py_min_gt _ _ Hw). apply Qle_refl.
  - rewrite (py_min_le _ _ Hw). exact Hw.
Qed.

Lemma overall_score_capped_witness :
  overall_score {| detected_categories := [("toxic", 3)];
                   overall_score := 100;
                   all_scores := out_of_range;
                   is_toxic := true |} <= 100.
Proof.
  apply (overall_score_capped out_of_range). reflexivity.
Defined.

Lemma Qsum_at_least (xs : list Q) :
  Forall (fun s => 1 # 2 <= s) xs ->
  (1 # 2) * inject_Z (Z.of_nat (List.length xs)) <= Qsum xs.
Proof.
  induction 1 as [|x xs Hx _ IH].
  - simpl. unfold inject_Z. lra.
  - cbn [Qsum List.length]. rewrite Nat2Z.inj_succ, <- Z.add_1_r, inject_Z_plus.
    change (inject_Z 1) with 1. lra.
Qed.

Lemma restriction_at_least raw_scores :
  Forall (fun s => 1 # 2 <= s) (values (restriction raw_scores)).
Proof.
  unfold values, restriction. rewrite Forall_forall.
  intros s Hin. apply in_map_iff in Hin. destruct Hin as [kv [<- Hin]].
  apply filter_In in Hin. destruct Hin as [_ Hs]. now apply Qle_bool_iff.
Qed.

Lemma restriction_empty_all_below raw_scores :
  restriction raw_scores = [] -> Forall (fun s => s < 1 # 2) (values raw_scores).
Proof.
  intros Hr. unfold values. rewrite Forall_forall. intros s Hin.
  apply in_map_iff in Hin. destruct Hin as [[c s'] [<- Hin]]. simpl.
  apply Qnot_le_lt. intros Hs.
  assert (Hne : restriction raw_scores <> []).
  { apply restriction_nonempty. exists c, s'. auto. }
  contradiction.
Qed.

(** X3: the overall score tells the two kinds of verdict apart: a
    toxic verdict scores 50 or more, any other verdict scores below
    25. *)
Theorem toxic_score_gap (raw_scores : dict Q) (v : verdict) :
  NoDup (keys raw_scores) ->
  aggregate_scores raw_scores = Ok v ->
  (is_toxic v = true -> 50 <= overall_score v) /\
  (is_toxic v = false -> overall_score v < 25).
Proof.
  intros Hnd Hv.
  destruct (weighted_score raw_scores (scan_scores raw_scores)) as [w|e] eqn:Hw.
  2:{ unfold aggregate_scores in Hv. rewrite Hw in Hv. discriminate Hv. }
  rewrite (aggregate_scores_shape _ _ Hnd Hw) in Hv. injection Hv as <-. simpl.
  destruct (restriction raw_scores) as [|item rest] eqn:Hr.
  - split; [discriminate|]. intros _.
    rewrite (weighted_score_fallback _ Hnd Hr) in Hw.
    destruct (values raw_scores) as [|x xs] eqn:Hvals; [discriminate Hw|].
    destruct (py_max_spec (x :: xs)) as (m & Hm & Hin & _); [discriminate|].
    rewrite Hm in Hw. simpl in Hw. injection Hw as <-.
    pose proof (restriction_empty_all_below _ Hr) as Hlow.
    rewrite Hvals, Forall_forall in Hlow. specialize (Hlow m Hin).
    rewrite py_min_le; lra.
  - split; [|discriminate]. intros _.
    assert (Hne : restriction raw_scores <> []) by (rewrite Hr; discriminate).
    destruct (weighted_score_detected _ Hnd Hne) as (w' & Hw' & Hmean).
    rewrite Hw in Hw'. injection Hw' as <-.
    assert (Hhalf : 1 # 2 <= mean (values (restriction raw_scores))).
    { unfold mean.
      assert (Hv : values (restriction raw_scores) <> []).
      { unfold values. rewrite Hr. discriminate. }
      pose proof (length_pos_Q _ Hv) as Hpos.
      apply Qle_shift_div_l; [exact Hpos|].
      apply Qsum_at_least. apply restriction_at_least. }
    destruct (Qlt_le_dec 100 w) as [Hc|Hc].
    + rewrite (py_min_gt _ _ Hc). lra.
    + rewrite (py_min_le _ _ Hc). lra.
Qed.

Lemma toxic_score_gap_witness :
  exists v,
    aggregate_scores one_detected = Ok v /\
    (is_toxic v = true -> 50 <= overall_score v) /\
    (is_toxic v = false -> overall_score v < 25).
Proof.
  eexists. split; [reflexivity|].
  apply (toxic_score_gap one_detected).
  - apply six_categories_NoDup. exact one_detected_six.
  - reflexivity.
Defined.

(** ** The order of the categories *)

Lemma restriction_Permutation (d d' : dict Q) :
  Permutation d d' -> Permutation (restriction d) (restriction d').
Proof.
  unfold restriction. induction 1 as [|x l l' _ IH|x y l|l l' l'' _ IH1 _ IH2]; simpl.
  - constructor.
  - destruct (at_threshold x); [now constructor | exact IH].
  - destruct (at_threshold x), (at_threshold y);
      try apply Permutation_refl. apply perm_swap.
  - now transitivity (filter at_threshold l').
Qed.

Lemma Qsum_Permutation (xs ys : list Q) : Permutation xs ys -> Qsum xs == Qsum ys.
Proof.
  induction 1 as [|x l l' _ IH|x y l|l l' l'' _ IH1 _ IH2]; simpl; lra.
Qed.

Lemma mean_Permutation (xs ys : list Q) : Permutation xs ys -> mean xs == mean ys.
Proof.
  intros H. unfold mean.
  rewrite (Qsum_Permutation _ _ H), (Permutation_length H). reflexivity.
Qed.

Lemma is_maximum_Permutation m (xs ys : list Q) :
  Permutation xs ys -> is_maximum m xs -> is_maximum m ys.
Proof.
  intros H [Hin Hall]. split.
  - now apply (Permutation_in _ H).
  - now apply (Permutation_Forall H).
Qed.

Lemma py_min_compat w w' : w == w' -> py_min w 100 == py_min w' 100.
Proof.
  intros H. rewrite !py_min_Qmin.
  destruct (Qlt_le_dec 100 w) as [Hc|Hc].
  - rewrite !Q.min_r; lra.
  - rewrite !Q.min_l; lra.
Qed.

(** X4: the verdict does not depend on the order in which the
    classifier lists the categories: on a reordered dictionary the
    aggregator detects the same entries, gives an equal overall score
    and the same flag. *)
Theorem aggregate_scores_order (raw_scores raw_scores' : dict Q) (v : verdict) :
  NoDup (keys raw_scores) ->
  Permutation raw_scores raw_scores' ->
  aggregate_scores raw_scores = Ok v ->
  exists v',
    aggregate_scores raw_scores' = Ok v' /\
    Permutation (detected_categories v) (detected_categories v') /\
    overall_score v == overall_score v' /\
    is_toxic v = is_toxic v'.
Proof.
  intros Hnd Hperm Hv.
  assert (Hnd' : NoDup (keys raw_scores')).
  { apply (Permutation_NoDup (l := keys raw_scores)); [|exact Hnd].
    unfold keys. now apply Permutation_map. }
  assert (Hne : raw_scores <> []).
  { intros ->. discriminate Hv. }
  assert (Hne' : raw_scores' <> []).
  { intros ->. apply Permutation_sym, Permutation_nil in Hperm. contradiction. }
  destruct (weighted_score_total _ Hnd Hne) as [w Hw].
  destruct (weighted_score_total _ Hnd' Hne') as [w' Hw'].
  rewrite (aggregate_scores_shape _ _ Hnd Hw) in Hv. injection Hv as <-.
  eexists. split; [apply (aggregate_scores_shape _ _ Hnd' Hw')|]. simpl.
  pose proof (restriction_Permutation _ _ Hperm) as Hr.
  split; [exact Hr|]. split; [|now rewrite (Permutation_length Hr)].
  apply py_min_compat.
  destruct (restriction raw_scores) as [|item rest] eqn:He.
  - apply Permutation_nil in Hr.
    rewrite (weighted_score_fallback _ Hnd He) in Hw.
    rewrite (weighted_score_fallback _ Hnd' Hr) in Hw'.
    destruct (py_max_spec (values raw_scores)) as (m & Hm & Hmax).
    { destruct raw_scores; [congruence | discriminate]. }
    destruct (py_max_spec (values raw_scores')) as (m' & Hm' & Hmax').
    { destruct raw_scores'; [congruence | discriminate]. }
    rewrite Hm in Hw. rewrite Hm' in Hw'. simpl in Hw, Hw'.
    injection Hw as <-. injection Hw' as <-.
    assert (Hmm : m == m').
    { apply (is_maximum_unique m m' (values raw_scores')); [|exact Hmax'].
      apply (is_maximum_Permutation m (values raw_scores)); [|exact Hmax].
      unfold values. now apply Permutation_map. }
    rewrite Hmm. reflexivity.
  - rewrite <- He in Hr.
    assert (Hd : restriction raw_scores <> []) by (rewrite He; discriminate).
    assert (Hd' : restriction raw_scores' <> []).
    { intros H0. rewrite H0 in Hr. apply Permutation_sym, Permutation_nil in Hr.
      contradiction. }
    destruct (weighted_score_detected _ Hnd Hd) as (x & Hx & Hmean).
    destruct (weighted_score_detected _ Hnd' Hd') as (x' & Hx' & Hmean').
    rewrite Hw in Hx. rewrite Hw' in Hx'. injection Hx as <-. injection Hx' as <-.
    rewrite Hmean, Hmean'.
    rewrite (mean_Permutation (values (restriction raw_scores))
                              (values (restriction raw_scores'))).
    + reflexivity.
    + unfold values. now apply Permutation_map.
Qed.

Lemma aggregate_scores_order_witness :
  exists v v',
    aggregate_scores one_detected = Ok v /\
    aggregate_scores (rev one_detected) = Ok v' /\
    Permutation (detected_categories v) (detected_categories v') /\
    overall_score v == overall_score v' /\
    is_toxic v = is_toxic v'.
Proof.
  eexists.
  destruct (aggregate_scores_order one_detected (rev one_detected) _
              (six_categories_NoDup _ one_detected_six)
              (Permutation_rev one_detected) eq_refl) as (v' & H).
  exists v'. split; [reflexivity | exact H].
Defined.

(** ** Looking up a detected category *)

Lemma dict_get_absent {V} (d : dict V) k : ~ In k (keys d) -> dict_get d k = None.
Proof.
  induction d as [|[k' v'] d IH]; simpl; intros Hk; [reflexivity|].
  destruct (String.eqb_spec k' k) as [->|_].
  - exfalso. apply Hk. now left.
  - apply IH. intros Hin. apply Hk. now right.
Qed.

Lemma dict_get_filter (f : string * Q -> bool) (d : dict Q) c s :
  NoDup (keys d) ->
  (dict_get (filter f d) c = Some s <-> dict_get d c = Some s /\ f (c, s) = true).
Proof.
  induction d as [|[k x] d IH]; intros Hnd.
  - simpl. split; [discriminate | intros [H _]; discriminate H].
  - inversion Hnd as [|? ? Hk Hnd']; subst. specialize (IH Hnd').
    cbn [filter dict_get]. destruct (String.eqb_spec k c) as [->|Hkc].
    + destruct (f (c, x)) eqn:Hf; cbn [dict_get].
      * rewrite String.eqb_refl. split.
        -- intros H. injection H as <-. auto.
        -- intros [H _]. exact H.
      * rewrite IH, (dict_get_absent d c Hk). split.
        -- intros [H _]. discriminate H.
        -- intros [H Hs]. injection H as <-. congruence.
    + destruct (f (k, x)); cbn [dict_get].
      * apply String.eqb_neq in Hkc. rewrite Hkc. exact IH.
      * exact IH.
Qed.

(** X5: a category is reported as detected with a score exactly when
    the classifier gave it that score and the score is 0.5 or more. *)
Theorem detected_lookup (raw_scores : dict Q) (v : verdict) (c : string) (s : Q) :
  NoDup (keys raw_scores) ->
  aggregate_scores raw_scores = Ok v ->
  (dict_get (detected_categories v) c = Some s <->
   dict_get raw_scores c = Some s /\ 1 # 2 <= s).
Proof.
  intros Hnd Hv.
  destruct (weighted_score raw_scores (scan_scores raw_scores)) as [w|e] eqn:Hw.
  2:{ unfold aggregate_scores in Hv. rewrite Hw in Hv. discriminate Hv. }
  rewrite (aggregate_scores_shape _ _ Hnd Hw) in Hv. injection Hv as <-. simpl.
  unfold restriction. rewrite (dict_get_filter at_threshold _ c s Hnd).
  unfold at_threshold. simpl. now rewrite Qle_bool_iff.
Qed.

Lemma detected_lookup_witness :
  exists v,
    aggregate_scores one_detected = Ok v /\
    (dict_get (detected_categories v) "toxic" = Some (9 # 10) <->
     dict_get one_detected "toxic" = Some (9 # 10) /\ 1 # 2 <= 9 # 10).
Proof.
  eexists. split; [reflexivity|].
  apply (detected_lookup one_detected).
  - apply six_categories_NoDup. exact one_detected_six.
  - reflexivity.
Defined.

(** ** The file handlers, branch by branch *)


Lemma image_route_unfold (detox_model_predict : string -> dict Q)
    (str_exn : exn -> string) (ocr_read : bytes -> result (list string))
    (req : request) :
  analyze_image_route detox_model_predict str_exn ocr_read req =
  match dict_get (files req) "image" with
  | None => (jsonify_status (ErrorBody "No image file provided") 400, [])
  | Some image_file =>
      if String.eqb (filename image_file) "" then
        (jsonify_status (ErrorBody "No image selected") 400, [])
      else
        let text := extract_text_from_image str_exn ocr_read (content image_file) in
        if startswith text "Error" || String.eqb text "No text detected in image" then
          (jsonify (VerdictBody zero_verdict (Some text)),
           [CallExtractText (content image_file)])
        else
          match analyze_toxicity detox_model_predict text with
          | Ok v =>
              (jsonify (VerdictBody v (Some text)),
               [CallExtractText (content image_file); CallAnalyzeToxicity text])
          | Raise e =>
              (jsonify_status (ErrorBody ("Image analysis failed: " ++ str_exn e)) 500,
               [CallExtractText (content image_file); CallAnalyzeToxicity text])
          end
  end.
Proof.
  unfold analyze_image_route. run_handler.
  destruct (dict_get (files req) "image") as [image_file|]; simpl; [|reflexivity].
  destruct (String.eqb (filename image_file) ""); simpl; [reflexivity|].
  set (text := extract_text_from_image str_exn ocr_read (content image_file)).
  destruct (startswith text "Error" || String.eqb text "No text detected in image");
    simpl; [reflexivity|].
  destruct (analyze_toxicity detox_model_predict text); reflexivity.
Qed.

Lemma audio_route_unfold (detox_model_predict : string -> dict Q)
    (str_exn : exn -> string) (audio_clip : Type)
    (load_audio : bytes -> result audio_clip)
    (recognize_google : audio_clip -> result string) (req : request) :
  analyze_audio_route detox_model_predict str_exn audio_clip load_audio
                      recognize_google req =
  match dict_get (files req) "audio" with
  | None => (jsonify_status (ErrorBody "No audio file provided") 400, [])
  | Some audio_file =>
      if String.eqb (filename audio_file) "" then
        (jsonify_status (ErrorBody "No audio selected") 400, [])
      else
        match allowed_audio_file (filename audio_file) with
        | Raise e =>
            (jsonify_status (ErrorBody ("Audio analysis failed: " ++ str_exn e)) 500, [])
        | Ok false =>
            (jsonify_status
               (ErrorBody "Invalid audio format. Supported: WAV, MP3, M4A, FLAC, AAC")
               400, [])
        | Ok true =>
            let text := speech_to_text str_exn audio_clip load_audio recognize_google
                          (content audio_file) (filename audio_file) in
            let adapter := CallSpeechToText (content audio_file) (filename audio_file) in
            if startswith text "Error" || String.eqb text "Could not understand audio" then
              (jsonify (VerdictBody zero_verdict (Some text)), [adapter])
            else
              match analyze_toxicity detox_model_predict text with
              | Ok v =>
                  (jsonify (VerdictBody v (Some text)),
                   [adapter; CallAnalyzeToxicity text])
              | Raise e =>
                  (jsonify_status (ErrorBody ("Audio analysis failed: " ++ str_exn e)) 500,
                   [adapter; CallAnalyzeToxicity text])
              end
        end
  end.
Proof.
  unfold analyze_audio_route. run_handler.
  destruct (dict_get (files req) "audio") as [audio_file|]; simpl; [|reflexivity].
  destruct (String.eqb (filename audio_file) ""); simpl; [reflexivity|].
  destruct (allowed_audio_file (filename audio_file)) as [[|]|e]; simpl;
    try reflexivity.
  set (text := speech_to_text str_exn audio_clip load_audio recognize_google
                 (content audio_file) (filename audio_file)).
  destruct (startswith text "Error" || String.eqb text "Could not understand audio");
    simpl; [reflexivity|].
  destruct (analyze_toxicity detox_model_predict text); reflexivity.
Qed.





(** ** What the handlers call, and what they answer *)

(** X8: the image handler calls the aggregator at most once, after the
    OCR adapter and on the text this adapter returned, and a 200 answer
    carries that text as its extracted text. *)
Theorem image_route_calls (detox_model_predict : string -> dict Q)
    (str_exn : exn -> string) (ocr_read : bytes -> result (list string))
    (req : request) :
  let out := analyze_image_route detox_model_predict str_exn ocr_read req in
  (forall text,
     In (CallAnalyzeToxicity text) (snd out) ->
     exists image_file,
       dict_get (files req) "image" = Some image_file /\
       text = extract_text_from_image str_exn ocr_read (content image_file) /\
       snd out = [CallExtractText (content image_file); CallAnalyzeToxicity text]) /\
  (status (fst out) = 200%Z ->
   exists image_file v,
     dict_get (files req) "image" = Some image_file /\
     payload (fst out) =
       VerdictBody v (Some (extract_text_from_image str_exn ocr_read
                              (content image_file))) /\
     hd_error (snd out) = Some (CallExtractText (content image_file))).
Proof.
  intros out. subst out. rewrite image_route_unfold.
  destruct (dict_get (files req) "image") as [image_file|].
  2:{ simpl. split; [intros text [] | discriminate]. }
  destruct (String.eqb (filename image_file) "").
  { simpl. split; [intros text [] | discriminate]. }
  cbv zeta.
  set (text := extract_text_from_image str_exn ocr_read (content image_file)).
  destruct (startswith text "Error" || String.eqb text "No text detected in image").
  { simpl. split; [intros t [H|[]]; discriminate H | eauto]. }
  destruct (analyze_toxicity detox_model_predict text) as [v|e]; simpl.
  - split; [|eauto].
    intros t [H|[H|[]]]; [discriminate H|]. injection H as <-. eauto.
  - split; [|discriminate].
    intros t [H|[H|[]]]; [discriminate H|]. injection H as <-. eauto.
Qed.

(** X9: the audio handler calls the aggregator at most once, after the
    speech adapter and on the text this adapter returned, and a 200
    answer carries that text as its extracted text. *)
Theorem audio_route_calls (detox_model_predict : string -> dict Q)
    (str_exn : exn -> string) (audio_clip : Type)
    (load_audio : bytes -> result audio_clip)
    (recognize_google : audio_clip -> result string) (req : request) :
  let out := analyze_audio_route detox_model_predict str_exn audio_clip load_audio
               recognize_google req in
  let heard audio_file :=
    speech_to_text str_exn audio_clip load_audio recognize_google
                   (content audio_file) (filename audio_file) in
  let adapter audio_file :=
    CallSpeechToText (content audio_file) (filename audio_file) in
  (forall text,
     In (CallAnalyzeToxicity text) (snd out) ->
     exists audio_file,
       dict_get (files req) "audio" = Some audio_file /\
       text = heard audio_file /\
       snd out = [adapter audio_file; CallAnalyzeToxicity text]) /\
  (status (fst out) = 200%Z ->
   exists audio_file v,
     dict_get (files req) "audio" = Some audio_file /\
     payload (fst out) = VerdictBody v (Some (heard audio_file)) /\
     hd_error (snd out) = Some (adapter audio_file)).
Proof.
  intros out heard adapter. subst out heard adapter. rewrite audio_route_unfold.
  destruct (dict_get (files req) "audio") as [audio_file|].
  2:{ simpl. split; [intros text [] | discriminate]. }
  destruct (String.eqb (filename audio_file) "").
  { simpl. split; [intros text [] | discriminate]. }
  destruct (allowed_audio_file (filename audio_file)) as [[|]|e];
    try (simpl; split; [intros text [] | discriminate]).
  cbv zeta.
  set (text := speech_to_text str_exn audio_clip load_audio recognize_google
                 (content audio_file) (filename audio_file)).
  destruct (startswith text "Error" || String.eqb text "Could not understand audio").
  { simpl. split; [intros t [H|[]]; discriminate H | eauto]. }
  destruct (analyze_toxicity detox_model_predict text) as [v|e]; simpl.
  - split; [|eauto].
    intros t [H|[H|[]]]; [discriminate H|]. injection H as <-. eauto.
  - split; [|discriminate].
    intros t [H|[H|[]]]; [discriminate H|]. injection H as <-. eauto.
Qed.

(** Trimming. *)

Lemma lstrip_head s :
  lstrip s = "" \/ exists c r, lstrip s = String c r /\ is_space c = false.
Proof.
  induction s as [|c s IH]; simpl; [now left|].
  destruct (is_space c) eqn:Hc; [exact IH|]. right. eauto.
Qed.

Lemma rstrip_idempotent s : rstrip (rstrip s) = rstrip s.
Proof.
  induction s as [|c s IH]; simpl; [reflexivity|].
  destruct (rstrip s) as [|c' r] eqn:Hr.
  - destruct (is_space c) eqn:Hc; [reflexivity|]. simpl. now rewrite Hc.
  - change (rstrip (String c (String c' r)))
      with (match rstrip (String c' r) with
            | EmptyString => if is_space c then EmptyString else String c EmptyString
            | String a r0 => String c (String a r0)
            end).
    rewrite IH. reflexivity.
Qed.

Lemma rstrip_keeps_head c r :
  is_space c = false -> exists r', rstrip (String c r) = String c r'.
Proof.
  intros Hc. simpl. destruct (rstrip r); [rewrite Hc|]; eauto.
Qed.

Lemma strip_idempotent s : strip (strip s) = strip s.
Proof.
  unfold strip. destruct (lstrip_head s) as [He|(c & r & He & Hc)]; rewrite He.
  - reflexivity.
  - destruct (rstrip_keeps_head c r Hc) as [r' Hr]. rewrite Hr.
    cbn [lstrip]. rewrite Hc, <- Hr. apply rstrip_idempotent.
Qed.

(** X10: the text handler gives the classifier only trimmed text: a
    text passed to the aggregator is the [text] string of the JSON
    object without its surrounding white space, it is not empty, and
    nothing else is called. *)
Theorem text_route_calls (detox_model_predict : string -> dict Q)
    (str_exn : exn -> string) (req : request) (text : string) :
  In (CallAnalyzeToxicity text)
     (snd (analyze_text_route detox_model_predict str_exn req)) ->
  (exists d s, get_json req = Ok (PDict d) /\
               dict_get d "text" = Some (PStr s) /\ text = strip s) /\
  text <> "" /\
  strip text = text /\
  snd (analyze_text_route detox_model_predict str_exn req) = [CallAnalyzeToxicity text].
Proof.
  rewrite text_route_unfold.
  destruct (get_json req) as [data|e]; [|intros []].
  destruct (no_text data) as [[|]|e]; try (intros []).
  destruct (py_getitem data "text") as [field|e] eqn:Hg; [|intros []].
  apply py_getitem_Ok in Hg. destruct Hg as (d & -> & Hd).
  destruct field as [| | | |s| |]; try (intros []).
  simpl py_strip. cbv iota.
  destruct (String.eqb_spec (strip s) "") as [He|He]; [intros []|].
  assert (Hlog : forall r : response * list call,
             snd r = [CallAnalyzeToxicity (strip s)] ->
             In (CallAnalyzeToxicity text) (snd r) ->
             (exists d0 s0, Ok (PDict d) = Ok (PDict d0) /\
                            dict_get d0 "text" = Some (PStr s0) /\ text = strip s0) /\
             text <> "" /\ strip text = text /\ snd r = [CallAnalyzeToxicity text]).
  { intros r Hr Hin. rewrite Hr in Hin. destruct Hin as [H|[]].
    injection H as <-. rewrite Hr.
    split; [eauto|]. split; [exact He|]. split; [apply strip_idempotent | reflexivity]. }
  destruct (analyze_toxicity detox_model_predict (strip s)); apply Hlog; reflexivity.
Qed.

Lemma text_route_calls_witness :
  (exists d s, get_json hello_request = Ok (PDict d) /\
               dict_get d "text" = Some (PStr s) /\ "hello" = strip s) /\
  "hello" <> "" /\
  strip "hello" = "hello" /\
  snd (analyze_text_route (fun _ => none_detected) sample_str hello_request)
  = [CallAnalyzeToxicity "hello"].
Proof.
  apply (text_route_calls (fun _ => none_detected) sample_str hello_request "hello").
  left. reflexivity.
Defined.

(** X11: every answer of the three handlers has status 200, 400 or 500;
    a 200 carries a verdict, a 400 an error message, and a 500 the
    handler's own prefix followed by the text of the exception. *)
Theorem responses_shaped (detox_model_predict : string -> dict Q)
    (str_exn : exn -> string) (ocr_read : bytes -> result (list string))
    (audio_clip : Type) (load_audio : bytes -> result audio_clip)
    (recognize_google : audio_clip -> result string) (req : request) :
  let shaped failed r :=
    (status r = 200%Z /\ exists v et, payload r = VerdictBody v et) \/
    (status r = 400%Z /\ exists error, payload r = ErrorBody error) \/
    (status r = 500%Z /\ exists e, payload r = ErrorBody (failed ++ str_exn e)) in
  shaped "Text analysis failed: "
         (fst (analyze_text_route detox_model_predict str_exn req)) /\
  shaped "Image analysis failed: "
         (fst (analyze_image_route detox_model_predict str_exn ocr_read req)) /\
  shaped "Audio analysis failed: "
         (fst (analyze_audio_route detox_model_predict str_exn audio_clip load_audio
                 recognize_google req)).
Proof.
  intros shaped. subst shaped. cbv beta.
  rewrite text_route_unfold, image_route_unfold, audio_route_unfold.
  split; [|split].
  - destruct (get_json req) as [data|e]; [|simpl; eauto 8].
    destruct (no_text data) as [[|]|e]; try (simpl; eauto 8).
    destruct (py_getitem data "text") as [field|e]; [|simpl; eauto 8].
    destruct (py_strip field) as [text|e]; [|simpl; eauto 8].
    destruct (String.eqb text ""); [simpl; eauto 8|].
    destruct (analyze_toxicity detox_model_predict text); simpl; eauto 8.
  - destruct (dict_get (files req) "image") as [image_file|]; [|simpl; eauto 8].
    destruct (String.eqb (filename image_file) ""); [simpl; eauto 8|]. cbv zeta.
    set (text := extract_text_from_image str_exn ocr_read (content image_file)).
    destruct (startswith text "Error" || String.eqb text "No text detected in image");
      [simpl; eauto 8|].
    destruct (analyze_toxicity detox_model_predict text); simpl; eauto 8.
  - destruct (dict_get (files req) "audio") as [audio_file|]; [|simpl; eauto 8].
    destruct (String.eqb (filename audio_file) ""); [simpl; eauto 8|].
    destruct (allowed_audio_file (filename audio_file)) as [[|]|e];
      try (simpl; eauto 8).
    cbv zeta.
    set (text := speech_to_text str_exn audio_clip load_audio recognize_google
                   (content audio_file) (filename audio_file)).
    destruct (startswith text "Error" || String.eqb text "Could not understand audio");
      [simpl; eauto 8|].
    destruct (analyze_toxicity detox_model_predict text); simpl; eauto 8.
Qed.

(** ** Texts the file handlers do not analyse *)

(** X12: when the OCR fails or detects no text, the image handler
    answers 200 with the zero verdict and the message of the adapter,
    and the aggregator is not called. *)
Theorem image_failure_short_circuit (detox_model_predict : string -> dict Q)
    (str_exn : exn -> string) (ocr_read : bytes -> result (list string))
    (req : request) (image_file : upload) :
  dict_get (files req) "image" = Some image_file ->
  filename image_file <> "" ->
  (ocr_read (content image_file) = Ok [] \/
   exists e, ocr_read (content image_file) = Raise e) ->
  exists message,
    analyze_image_route detox_model_predict str_exn ocr_read req =
    ({| status := 200; payload := VerdictBody zero_verdict (Some message) |},
     [CallExtractText (content image_file)]) /\
    (ocr_read (content image_file) = Ok [] -> message = "No text detected in image") /\
    (forall e, ocr_read (content image_file) = Raise e ->
               message = "Error extracting text: " ++ str_exn e).
Proof.
  intros Hfile Hname Hocr. rewrite image_route_unfold, Hfile.
  apply String.eqb_neq in Hname. rewrite Hname. cbv zeta.
  unfold extract_text_from_image.
  destruct Hocr as [H|[e H]]; rewrite H; eexists.
  - split; [reflexivity|]. split; [reflexivity | discriminate].
  - split; [reflexivity|]. split; [discriminate|].
    intros e' He'. now injection He' as <-.
Qed.

Lemma image_failure_short_circuit_witness :
  exists message,
    analyze_image_route (fun _ => none_detected) sample_str (fun _ => Ok []) scan_request =
    ({| status := 200; payload := VerdictBody zero_verdict (Some message) |},
     [CallExtractText []]) /\
    ((fun _ : bytes => Ok (A := list string) []) [] = Ok [] ->
     message = "No text detected in image") /\
    (forall e, (fun _ : bytes => Ok (A := list string) []) [] = Raise e ->
               message = "Error extracting text: " ++ sample_str e).
Proof.
  apply (image_failure_short_circuit (fun _ => none_detected) sample_str
           (fun _ => Ok []) scan_request (mk_upload "scan.png" [])).
  - reflexivity.
  - simpl. discriminate.
  - left. reflexivity.
Defined.

(** X13: a text that the OCR reads and whose first line starts with
    Error is taken for a failure of the adapter: the image handler
    answers with the zero verdict and the aggregator never sees the
    text. *)
Theorem image_text_starting_with_Error (detox_model_predict : string -> dict Q)
    (str_exn : exn -> string) (ocr_read : bytes -> result (list string))
    (req : request) (image_file : upload) (rest : string) (lines : list string) :
  dict_get (files req) "image" = Some image_file ->
  filename image_file <> "" ->
  ocr_read (content image_file) = Ok (("Error" ++ rest) :: lines) ->
  analyze_image_route detox_model_predict str_exn ocr_read req =
  ({| status := 200;
      payload := VerdictBody zero_verdict
                   (Some (concat newline (("Error" ++ rest) :: lines))) |},
   [CallExtractText (content image_file)]).
Proof.
  intros Hfile Hname Hocr. rewrite image_route_unfold, Hfile.
  apply String.eqb_neq in Hname. rewrite Hname. cbv zeta.
  unfold extract_text_from_image. rewrite Hocr.
  destruct rest, lines; reflexivity.
Qed.

Lemma image_text_starting_with_Error_witness :
  analyze_image_route (fun _ => one_detected) sample_str
    (fun _ => Ok ["Error" ++ "s were made"; "you idiot"]) scan_request =
  ({| status := 200;
      payload := VerdictBody zero_verdict
                   (Some (concat newline ["Error" ++ "s were made"; "you idiot"])) |},
   [CallExtractText (content (mk_upload "scan.png" []))]).
Proof.
  apply (image_text_starting_with_Error (fun _ => one_detected) sample_str
           (fun _ => Ok ["Error" ++ "s were made"; "you idiot"]) scan_request
           (mk_upload "scan.png" []) "s were made" ["you idiot"]).
  - reflexivity.
  - simpl. discriminate.
  - reflexivity.
Defined.

(** X14: a transcript that starts with Error, or that is the sentence
    Could not understand audio, and the sentinel of a recognition that
    understood nothing are all answered with the zero verdict, and the
    aggregator is not called. *)
Theorem audio_short_circuit (detox_model_predict : string -> dict Q)
    (str_exn : exn -> string) (audio_clip : Type)
    (load_audio : bytes -> result audio_clip)
    (recognize_google : audio_clip -> result string)
    (req : request) (audio_file : upload) (clip : audio_clip) :
  dict_get (files req) "audio" = Some audio_file ->
  has_allowed_extension (filename audio_file) ->
  load_audio (content audio_file) = Ok clip ->
  (recognize_google clip = Raise UnknownValueError \/
   recognize_google clip = Ok "Could not understand audio" \/
   exists rest, recognize_google clip = Ok ("Error" ++ rest)) ->
  exists text,
    analyze_audio_route detox_model_predict str_exn audio_clip load_audio
                        recognize_google req =
    ({| status := 200; payload := VerdictBody zero_verdict (Some text) |},
     [CallSpeechToText (content audio_file) (filename audio_file)]) /\
    (recognize_google clip = Raise UnknownValueError ->
     text = "Could not understand audio") /\
    (forall transcript, recognize_google clip = Ok transcript -> text = transcript).
Proof.
  intros Hfile Hext Hload Hrec. rewrite audio_route_unfold, Hfile.
  assert (Hname : String.eqb (filename audio_file) "" = false).
  { apply String.eqb_neq. destruct Hext as (stem & ext & -> & _).
    destruct stem; discriminate. }
  rewrite Hname.
  destruct (allowed_audio_file_value (filename audio_file)) as (b & Hb & Hiff).
  assert (b = true) as -> by now apply Hiff.
  rewrite Hb. cbv zeta. unfold speech_to_text. rewrite Hload.
  destruct Hrec as [H|[H|[rest H]]]; rewrite H; eexists.
  - split; [reflexivity|]. split; [reflexivity | discriminate].
  - split; [reflexivity|]. split; [discriminate|].
    intros t Ht. now injection Ht as <-.
  - split; [destruct rest; reflexivity|]. split; [discriminate|].
    intros t Ht. now injection Ht as <-.
Qed.

Lemma wav_allowed : has_allowed_extension "clip.wav".
Proof.
  destruct (allowed_audio_file_value "clip.wav") as (b & Hb & Hiff).
  apply Hiff. injection Hb as <-. reflexivity.
Qed.

Lemma audio_short_circuit_witness :
  exists text,
    analyze_audio_route (fun _ => one_detected) sample_str unit
      (fun _ => Ok tt) (fun _ => Ok ("Error" ++ ", you fool")) clip_wav_request =
    ({| status := 200; payload := VerdictBody zero_verdict (Some text) |},
     [CallSpeechToText [] "clip.wav"]) /\
    ((fun _ : unit => Ok ("Error" ++ ", you fool")) tt = Raise UnknownValueError ->
     text = "Could not understand audio") /\
    (forall transcript,
       (fun _ : unit => Ok ("Error" ++ ", you fool")) tt = Ok transcript ->
       text = transcript).
Proof.
  apply (audio_short_circuit (fun _ => one_detected) sample_str unit
           (fun _ => Ok tt) (fun _ => Ok ("Error" ++ ", you fool")) clip_wav_request
           (mk_upload "clip.wav" []) tt).
  - reflexivity.
  - exact wav_allowed.
  - reflexivity.
  - right; right. exists ", you fool". reflexivity.
Defined.

(** ** Conversion of the classifier's result *)

Section ObjectInduction.

Variable P : Convert.obj -> Prop.
Hypothesis HDict : forall d, Forall (fun kv => P (snd kv)) d -> P (Convert.Dict d).
Hypothesis HList : forall xs, Forall P xs -> P (Convert.List xs).
Hypothesis HFloat32 : forall q, P (Convert.Float32 q).
Hypothesis HFloat : forall q, P (Convert.Float q).
Hypothesis HNdArray : forall a, P (Convert.NdArray a).
Hypothesis HOther : forall repr, P (Convert.Other repr).

Fixpoint obj_induction (o : Convert.obj) : P o :=
  match o with
  | Convert.Dict d =>
      HDict d
        ((fix entries (d : list (string * Convert.obj)) :
            Forall (fun kv => P (snd kv)) d :=
            match d with
            | [] => Forall_nil _
            | (key, value) :: rest =>
                Forall_cons (key, value) (obj_induction value) (entries rest)
            end) d)
  | Convert.List xs =>
      HList xs
        ((fix items (xs : list Convert.obj) : Forall P xs :=
            match xs with
            | [] => Forall_nil _
            | x :: rest => Forall_cons x (obj_induction x) (items rest)
            end) xs)
  | Convert.Float32 q => HFloat32 q
  | Convert.Float q => HFloat q
  | Convert.NdArray a => HNdArray a
  | Convert.Other repr => HOther repr
  end.

End ObjectInduction.

Section ArrayInduction.

Variable P : Convert.ndarray -> Prop.
Hypothesis HItem : forall q, P (Convert.Item q).
Hypothesis HAxis : forall rows, Forall P rows -> P (Convert.Axis rows).

Fixpoint ndarray_induction (a : Convert.ndarray) : P a :=
  match a with
  | Convert.Item q => HItem q
  | Convert.Axis rows =>
      HAxis rows
        ((fix items (rows : list Convert.ndarray) : Forall P rows :=
            match rows with
            | [] => Forall_nil _
            | x :: rest => Forall_cons x (ndarray_induction x) (items rest)
            end) rows)
  end.

End ArrayInduction.

Lemma tolist_plain (a : Convert.ndarray) : Convert.plain (Convert.tolist a) = true.
Proof.
  induction a as [q|rows IH] using ndarray_induction; simpl; [reflexivity|].
  rewrite forallb_forall. intros o Hin. apply in_map_iff in Hin.
  destruct Hin as (a & <- & Hin). rewrite Forall_forall in IH. now apply IH.
Qed.

Lemma convert_plain (o : Convert.obj) :
  Convert.plain (Convert.convert_float32_to_float o) = true.
Proof.
  induction o as [d IH|xs IH|q|q|a|repr] using obj_induction; simpl;
    try reflexivity.
  - rewrite forallb_forall. intros kv Hin. apply in_map_iff in Hin.
    destruct Hin as ([key value] & <- & Hin). simpl.
    rewrite Forall_forall in IH. apply (IH (key, value) Hin).
  - rewrite forallb_forall. intros o Hin. apply in_map_iff in Hin.
    destruct Hin as (x & <- & Hin). rewrite Forall_forall in IH. now apply IH.
  - apply tolist_plain.
Qed.

Lemma plain_fixed (o : Convert.obj) :
  Convert.plain o = true -> Convert.convert_float32_to_float o = o.
Proof.
  induction o as [d IH|xs IH|q|q|a|repr] using obj_induction; simpl;
    try reflexivity; try discriminate.
  - intros Hp. f_equal. rewrite forallb_forall in Hp. rewrite Forall_forall in IH.
    rewrite <- (map_id d) at 2. apply map_ext_in.
    intros [key value] Hin. f_equal. apply (IH (key, value) Hin).
    apply (Hp (key, value) Hin).
  - intros Hp. f_equal. rewrite forallb_forall in Hp. rewrite Forall_forall in IH.
    rewrite <- (map_id xs) at 2. apply map_ext_in.
    intros x Hin. apply (IH x Hin). apply (Hp x Hin).
Qed.

(** X15: [convert_float32_to_float] leaves no [np.float32] and no array
    in the nesting of dictionaries and lists, it changes nothing in an
    object that has none, and so converting twice is converting once. *)
Theorem convert_float32_to_float_plain (o : Convert.obj) :
  Convert.plain (Convert.convert_float32_to_float o) = true /\
  (Convert.plain o = true -> Convert.convert_float32_to_float o = o) /\
  Convert.convert_float32_to_float (Convert.convert_float32_to_float o) =
  Convert.convert_float32_to_float o.
Proof.
  split; [apply convert_plain|]. split; [apply plain_fixed|].
  apply plain_fixed. apply convert_plain.
Qed.

(** X16: a dictionary of scores comes out of the conversion as the
    dictionary of floats with the same keys in the same order and the
    same values, whether the classifier gave [np.float32] or floats:
    what [predict_detox] returns is what the classifier predicted. *)
Theorem convert_scores (d : dict Q) :
  Convert.convert_float32_to_float (Convert.float32_scores d) =
  Convert.float_scores (convert_float32_to_float d) /\
  Convert.convert_float32_to_float (Convert.float_scores d) =
  Convert.float_scores (convert_float32_to_float d) /\
  convert_float32_to_float d = d.
Proof.
  assert (H : convert_float32_to_float d = d).
  { unfold convert_float32_to_float. rewrite <- (map_id d) at 2.
    apply map_ext. now intros []. }
  rewrite H. unfold Convert.float32_scores, Convert.float_scores.
  repeat split; simpl; f_equal; rewrite map_map; apply map_ext; now intros [].
Qed.

(** ** The history of the client *)

Lemma addToHistory_history (analysis : Type) (a : analysis)
    (p : Frontend.page analysis) :
  Frontend.analysisHistory analysis (Frontend.addToHistory analysis a p)
  = firstn 10 (a :: Frontend.analysisHistory analysis p).
Proof.
  unfold Frontend.addToHistory. cbv zeta. cbn [Frontend.analysisHistory].
  set (h := a :: Frontend.analysisHistory analysis p).
  destruct (Nat.ltb_spec 10 (List.length h)) as [Hlt|Hge]; [reflexivity|].
  symmetry. apply firstn_all2. exact Hge.
Qed.

(** X17: after an analysis is added, the history starts with it,
    keeps the entries before it in their order, has at most ten
    entries, and the local storage holds this very list, so that a
    reload of the page finds it. *)
Theorem addToHistory_bounded (analysis : Type) (a : analysis)
    (p : Frontend.page analysis) :
  let p' := Frontend.addToHistory analysis a p in
  Frontend.analysisHistory analysis p'
  = firstn 10 (a :: Frontend.analysisHistory analysis p) /\
  List.length (Frontend.analysisHistory analysis p')
  = Nat.min 10 (S (List.length (Frontend.analysisHistory analysis p))) /\
  (List.length (Frontend.analysisHistory analysis p') <= 10)%nat /\
  Frontend.load analysis (Frontend.sentra_history analysis p')
  = Frontend.analysisHistory analysis p'.
Proof.
  intros p'. subst p'.
  pose proof (addToHistory_history analysis a p) as Hh.
  split; [exact Hh|].
  split; [rewrite Hh, length_firstn; reflexivity|].
  split; [rewrite Hh, length_firstn; cbn [List.length]; lia|].
  reflexivity.
Qed.

(** X18: after any number of analyses are added one after the other, the
    history is the ten newest entries, the newest first: the added ones
    in reverse order, then the older ones. *)
Theorem addToHistory_sequence (analysis : Type) (added : list analysis)
    (p : Frontend.page analysis) :
  Frontend.analysisHistory analysis
    (fold_left (fun q a => Frontend.addToHistory analysis a q) added p)
  = match added with
    | [] => Frontend.analysisHistory analysis p
    | _ => firstn 10 (rev added ++ Frontend.analysisHistory analysis p)%list
    end.
Proof.
  assert (Hgen : forall added p,
    firstn 10 (Frontend.analysisHistory analysis
                 (fold_left (fun q a => Frontend.addToHistory analysis a q) added p))
    = firstn 10 (rev added ++ Frontend.analysisHistory analysis p)%list).
  { clear. induction added as [|a added IH]; intros p; [reflexivity|].
    cbn [fold_left rev]. rewrite IH, addToHistory_history, <- app_assoc.
    cbn [app]. generalize (rev added) as front. intros front.
    rewrite !firstn_app, firstn_firstn. f_equal. f_equal. lia. }
  destruct added as [|a added] using rev_ind; [reflexivity|].
  destruct (added ++ [a])%list eqn:Hadd.
  { destruct added; discriminate Hadd. }
  rewrite <- Hadd, fold_left_app. cbn [fold_left].
  rewrite addToHistory_history, rev_app_distr. cbn [rev app].
  change (firstn 10 (a :: ?l)) with (a :: firstn 9 l).
  f_equal.
  pose proof (Hgen added p) as H.
  apply (f_equal (firstn 9)) in H. rewrite !firstn_firstn in H. exact H.
Qed.

(** ** Bodies that are not JSON objects *)

(** X19: a parsed body that is not a JSON object is never analysed: it
    is answered with 400 when it is empty or does not contain text, and
    with 500 otherwise, as a number, a list with the element text or a
    string with the word text are. *)
Theorem text_route_not_object (detox_model_predict : string -> dict Q)
    (str_exn : exn -> string) (req : request) (data : pyval) :
  get_json req = Ok data ->
  (forall d, data <> PDict d) ->
  let out := analyze_text_route detox_model_predict str_exn req in
  snd out = [] /\
  (status (fst out) = 400%Z <-> lacks_text data) /\
  (status (fst out) = 500%Z <-> ~ lacks_text data).
Proof.
  intros Hj Hobj out. subst out. rewrite text_route_unfold, Hj.
  destruct (no_text data) as [[|]|e] eqn:Hno.
  - assert (Hl : lacks_text data) by now apply no_text_true.
    simpl. repeat split; auto; try discriminate. intros H. contradiction.
  - assert (Hl : ~ lacks_text data).
    { intros H. apply no_text_true in H. congruence. }
    assert (Hg : exists e, py_getitem data "text" = Raise e).
    { destruct data; simpl; eauto. now destruct (Hobj d). }
    destruct Hg as [e Hg]. rewrite Hg. simpl.
    repeat split; auto; try discriminate. intros H. contradiction.
  - assert (Hl : ~ lacks_text data).
    { intros H. apply no_text_true in H. congruence. }
    simpl. repeat split; auto; try discriminate. intros H. contradiction.
Qed.

Lemma text_route_not_object_witness :
  let out := analyze_text_route (fun _ => none_detected) sample_str
               (mk_request (Ok (PList [PStr "text"])) []) in
  snd out = [] /\
  (status (fst out) = 400%Z <-> lacks_text (PList [PStr "text"])) /\
  (status (fst out) = 500%Z <-> ~ lacks_text (PList [PStr "text"])).
Proof.
  apply (text_route_not_object (fun _ => none_detected) sample_str
           (mk_request (Ok (PList [PStr "text"])) []) (PList [PStr "text"])).
  - reflexivity.
  - intros d. discriminate.
Defined.
